(** * VigilanceOS backend-api: telemetry ingestion, threshold evaluation,
      anomaly store and WebSocket fan-out

    A shallow embedding of

    - [app/services/anomaly_forwarder.py] ([check_anomaly]),
    - [app/routes/telemetry.py] ([submit_telemetry], [resolve_anomaly]),
    - [app/routes/websocket.py] ([ConnectionManager] and the broadcast
      helpers),
    - the rows of [app/models/device.py] and [app/models/telemetry.py].

    Python dicts are finite maps with string keys, exceptions are an error
    monad, the database session and the connection manager are an explicit
    state record.  Every handler is run to completion: interleavings at
    [await] points are not part of the model, and the database executes
    every statement it is given.  Metric values are Python floats; the
    handlers only compare them, so they are rationals here (finite values,
    exact order). *)

From Stdlib Require Import QArith.
From stdpp Require Import gmap strings list fin_maps pretty sorting.

Local Open Scope string_scope.
Local Open Scope Z_scope.
Local Open Scope list_scope.

(** ** Python values and exceptions *)

(** The scalars that reach the handlers: [None], a number, a string.  The
    telemetry dict holds a [str] under ["device_id"] and [None] or a float
    under each metric; the JSON threshold column holds, per metric, an object
    with whatever scalar the administrator stored under ["min"] and ["max"].
    JSON booleans, arrays and deeper nesting are not represented. *)
Inductive pyval : Type :=
  | PNone
  | PNum (q : Q)
  | PStr (s : string).

Inductive exn : Type :=
  | KeyError (key : string)
  | TypeError
  | RuntimeError.

Inductive result (E A : Type) : Type :=
  | Ok (a : A)
  | Raise (e : E).
Arguments Ok {E A} a.
Arguments Raise {E A} e.

#[global] Instance result_ret {E} : MRet (result E) := fun _ a => Ok a.
#[global] Instance result_bind {E} : MBind (result E) := fun _ _ f m =>
  match m with
  | Ok a => f a
  | Raise e => Raise e
  end.

#[global] Instance result_fmap {E} : FMap (result E) := fun _ _ f m =>
  match m with
  | Ok a => Ok (f a)
  | Raise e => Raise e
  end.

Definition Qltb (x y : Q) : bool := negb (Qle_bool y x).

(** [a < b] on Python values: numbers by value, strings by code point,
    anything else is a [TypeError]. *)
Definition py_lt (a b : pyval) : result exn bool :=
  match a, b with
  | PNum x, PNum y => Ok (Qltb x y)
  | PStr x, PStr y => Ok (String.ltb x y)
  | _, _ => Raise TypeError
  end.

(** [a > b]. *)
Definition py_gt (a b : pyval) : result exn bool :=
  match a, b with
  | PNum x, PNum y => Ok (Qltb y x)
  | PStr x, PStr y => Ok (String.ltb y x)
  | _, _ => Raise TypeError
  end.

(** [d[k]]: a missing key raises [KeyError]. *)
Definition getitem {V} (d : gmap string V) (k : string) : result exn V :=
  match d !! k with
  | Some v => Ok v
  | None => Raise (KeyError k)
  end.

(** ** Rows *)

Inductive DeviceStatus : Type := ONLINE | OFFLINE | WARNING | ERROR.

(** The JSON threshold column: metric name to a dict of bounds. *)
Abbreviation ThresholdConfig := (gmap string (gmap string pyval)).

(** [models/device.py].  The audit columns [created_at] and [updated_at] are
    filled by the database and read by no handler below; they are left out. *)
Record Device : Type := {
  id : Z;
  name : string;
  device_id : string;
  lat : option Q;
  lng : option Q;
  status : DeviceStatus;
  last_seen : option Z;
  threshold_config : option ThresholdConfig
}.

(** [schemas/telemetry.py], [TelemetryCreate]. *)
Record TelemetryCreate : Type := {
  tc_device_id : string;
  tc_temperature : option Q;
  tc_battery : option Q;
  tc_signal_strength : option Q;
  tc_cpu_usage : option Q;
  tc_memory_usage : option Q;
  tc_disk_usage : option Q
}.

(** [models/telemetry.py], [Telemetry]. *)
Record Telemetry : Type := {
  t_id : Z;
  t_timestamp : Z;
  t_device_id : string;
  t_temperature : option Q;
  t_battery : option Q;
  t_signal_strength : option Q;
  t_cpu_usage : option Q;
  t_memory_usage : option Q;
  t_disk_usage : option Q
}.

(** [models/telemetry.py], [Anomaly].  [resolved] is the string column of
    the source, ["true"] or ["false"]. *)
Record Anomaly : Type := {
  a_id : Z;
  a_device_id : string;
  a_timestamp : Z;
  anomaly_type : string;
  reason : string;
  severity : string;
  resolved : string
}.

(** One entry of [anomalies_detected]: the dict with keys ["type"],
    ["reason"] and ["severity"]. *)
Record Candidate : Type := {
  c_type : string;
  c_reason : string;
  c_severity : string
}.

Definition opt_val (o : option Q) : pyval :=
  match o with
  | Some q => PNum q
  | None => PNone
  end.

(** [telemetry_data.dict()]: every field of the model is a key of the dict,
    an unreported metric maps to [None]. *)
Definition dict (t : TelemetryCreate) : gmap string pyval :=
  <["device_id" := PStr (tc_device_id t)]>
  (<["temperature" := opt_val (tc_temperature t)]>
  (<["battery" := opt_val (tc_battery t)]>
  (<["signal_strength" := opt_val (tc_signal_strength t)]>
  (<["cpu_usage" := opt_val (tc_cpu_usage t)]>
  (<["memory_usage" := opt_val (tc_memory_usage t)]>
  (<["disk_usage" := opt_val (tc_disk_usage t)]> ∅)))))).

(** ** Threshold rules of [check_anomaly] *)

Section Evaluator.

(** [str()] of a number, as an f-string renders it. *)
Variable str_num : Q -> string.

Definition py_str (v : pyval) : string :=
  match v with
  | PNone => "None"
  | PNum q => str_num q
  | PStr s => s
  end.

Definition check_temperature (telemetry_data : gmap string pyval)
    (thresholds : ThresholdConfig) : result exn (list Candidate) :=
  match telemetry_data !! "temperature", thresholds !! "temperature" with
  | Some temp, Some cfg =>
      mx ← getitem cfg "max";
      hi ← py_gt temp mx;
      if hi : bool then
        Ok [ {| c_type := "HIGH_TEMPERATURE";
                c_reason := "Temperature " +:+ py_str temp
                   +:+ "°C exceeds threshold " +:+ py_str mx +:+ "°C";
                c_severity := "high" |} ]
      else
        mn ← getitem cfg "min";
        lo ← py_lt temp mn;
        if lo : bool then
          Ok [ {| c_type := "LOW_TEMPERATURE";
                  c_reason := "Temperature " +:+ py_str temp
                     +:+ "°C below threshold " +:+ py_str mn +:+ "°C";
                  c_severity := "medium" |} ]
        else Ok []
  | _, _ => Ok []
  end.

Definition check_battery (telemetry_data : gmap string pyval)
    (thresholds : ThresholdConfig) : result exn (list Candidate) :=
  match telemetry_data !! "battery", thresholds !! "battery" with
  | Some battery, Some cfg =>
      mn ← getitem cfg "min";
      lo ← py_lt battery mn;
      if lo : bool then
        crit ← py_lt battery (PNum 10);
        Ok [ {| c_type := "LOW_BATTERY";
                c_reason := "Battery " +:+ py_str battery
                   +:+ "% below threshold " +:+ py_str mn +:+ "%";
                c_severity := if crit : bool then "high" else "medium" |} ]
      else Ok []
  | _, _ => Ok []
  end.

Definition check_signal_strength (telemetry_data : gmap string pyval)
    (thresholds : ThresholdConfig) : result exn (list Candidate) :=
  match telemetry_data !! "signal_strength", thresholds !! "signal_strength" with
  | Some signal, Some cfg =>
      mn ← getitem cfg "min";
      lo ← py_lt signal mn;
      if lo : bool then
        Ok [ {| c_type := "WEAK_SIGNAL";
                c_reason := "Signal strength " +:+ py_str signal
                   +:+ "dBm below threshold " +:+ py_str mn +:+ "dBm";
                c_severity := "medium" |} ]
      else Ok []
  | _, _ => Ok []
  end.

(** The list [anomalies_detected] when the three checks have run, or the
    exception that left the [try] block before the list was used. *)
Definition anomalies_detected (telemetry_data : gmap string pyval)
    (thresholds : ThresholdConfig) : result exn (list Candidate) :=
  t ← check_temperature telemetry_data thresholds;
  b ← check_battery telemetry_data thresholds;
  g ← check_signal_strength telemetry_data thresholds;
  Ok (t ++ b ++ g).

End Evaluator.

(** ** The connection manager of [routes/websocket.py] *)

(** A live connection handle. *)
Abbreviation WebSocket := nat.

(** The object handed to [json.dumps] by the broadcast helpers. *)
Record Message : Type := {
  m_type : string;
  m_data : gmap string pyval
}.

(** One call of [send_text]: the handle, the message, and whether the call
    returned ([true]) or raised ([false]). *)
Abbreviation Send := (WebSocket * Message * bool)%type.

(** [list.remove]: drops the first occurrence. *)
Fixpoint remove_first (x : WebSocket) (l : list WebSocket) : list WebSocket :=
  match l with
  | [] => []
  | y :: l' => if decide (x = y) then l' else y :: remove_first x l'
  end.

(** [ConnectionManager.connect]: [await websocket.accept()], then append.
    [accepted] tells whether the handshake returned; when it raises, the
    exception leaves [connect] before the append. *)
Definition connect (accepted : bool) (websocket : WebSocket)
    (active_connections : list WebSocket) : result exn unit * list WebSocket :=
  if accepted then (Ok tt, active_connections ++ [websocket])
  else (Raise RuntimeError, active_connections).

(** [ConnectionManager.disconnect]. *)
Definition disconnect (websocket : WebSocket)
    (active_connections : list WebSocket) : list WebSocket :=
  if bool_decide (websocket ∈ active_connections)
  then remove_first websocket active_connections
  else active_connections.

(** The first loop of [ConnectionManager.broadcast]: one [send_text] per
    entry, in list order; returns the calls made and the list
    [disconnected]. *)
Fixpoint send_loop (send_text : WebSocket -> Message -> bool) (message : Message)
    (connections : list WebSocket) : list Send * list WebSocket :=
  match connections with
  | [] => ([], [])
  | connection :: rest =>
      let '(calls, disconnected) := send_loop send_text message rest in
      if send_text connection message
      then ((connection, message, true) :: calls, disconnected)
      else ((connection, message, false) :: calls, connection :: disconnected)
  end.

(** [ConnectionManager.broadcast]: the calls made and the new
    [active_connections]. *)
Definition broadcast (send_text : WebSocket -> Message -> bool) (message : Message)
    (active_connections : list WebSocket) : list Send * list WebSocket :=
  let '(calls, disconnected) := send_loop send_text message active_connections in
  (calls, foldl (fun conns c => disconnect c conns) active_connections disconnected).

(** The handles [send_text] was called on, in call order. *)
Definition attempted (calls : list Send) : list WebSocket :=
  (fun call => call.1.1) <$> calls.

(** The handles whose [send_text] returned, in call order. *)
Definition delivered (calls : list Send) : list WebSocket :=
  attempted (filter (fun call => call.2 = true) calls).

(** ** The service state *)

Inductive HTTPError : Type :=
  | HTTPException (status_code : Z) (detail : string).

Record State : Type := {
  devices : list Device;
  telemetry : list Telemetry;
  anomalies : list Anomaly;
  active_connections : list WebSocket;
  wire : list Send;
  background_tasks : list (gmap string pyval);
  stdout : list exn
}.

Definition set_devices (v : list Device) (s : State) : State :=
  {| devices := v; telemetry := telemetry s; anomalies := anomalies s;
     active_connections := active_connections s; wire := wire s;
     background_tasks := background_tasks s; stdout := stdout s |}.

Definition set_telemetry (v : list Telemetry) (s : State) : State :=
  {| devices := devices s; telemetry := v; anomalies := anomalies s;
     active_connections := active_connections s; wire := wire s;
     background_tasks := background_tasks s; stdout := stdout s |}.

Definition set_anomalies (v : list Anomaly) (s : State) : State :=
  {| devices := devices s; telemetry := telemetry s; anomalies := v;
     active_connections := active_connections s; wire := wire s;
     background_tasks := background_tasks s; stdout := stdout s |}.

Definition set_manager (conns : list WebSocket) (w : list Send) (s : State) : State :=
  {| devices := devices s; telemetry := telemetry s; anomalies := anomalies s;
     active_connections := conns; wire := w;
     background_tasks := background_tasks s; stdout := stdout s |}.

Definition set_background_tasks (v : list (gmap string pyval)) (s : State) : State :=
  {| devices := devices s; telemetry := telemetry s; anomalies := anomalies s;
     active_connections := active_connections s; wire := wire s;
     background_tasks := v; stdout := stdout s |}.

Definition set_stdout (v : list exn) (s : State) : State :=
  {| devices := devices s; telemetry := telemetry s; anomalies := anomalies s;
     active_connections := active_connections s; wire := wire s;
     background_tasks := background_tasks s; stdout := v |}.

(** [manager.broadcast(json.dumps(...))] on the process-wide manager. *)
Definition manager_broadcast (send_text : WebSocket -> Message -> bool)
    (message : Message) (s : State) : State :=
  let '(calls, conns) := broadcast send_text message (active_connections s) in
  set_manager conns (wire s ++ calls) s.

Definition broadcast_telemetry (send_text : WebSocket -> Message -> bool)
    (telemetry_data : gmap string pyval) (s : State) : State :=
  manager_broadcast send_text {| m_type := "telemetry"; m_data := telemetry_data |} s.

Definition broadcast_anomaly (send_text : WebSocket -> Message -> bool)
    (anomaly_data : gmap string pyval) (s : State) : State :=
  manager_broadcast send_text {| m_type := "anomaly"; m_data := anomaly_data |} s.

(** ** Queries *)

(** [query.filter(...).first()]. *)
Definition first {A} (p : A -> bool) (rows : list A) : option A := List.find p rows.

(** The row returned by [first] is a live object: assigning to its
    attributes and committing rewrites that row in place. *)
Fixpoint update_first {A} (p : A -> bool) (f : A -> A) (rows : list A) : list A :=
  match rows with
  | [] => []
  | r :: rows' => if p r then f r :: rows' else r :: update_first p f rows'
  end.

(** The next value of an integer primary key. *)
Definition next_id (ids : list Z) : Z := 1 + foldr Z.max 0 ids.

Definition has_device_id (did : string) (d : Device) : bool :=
  bool_decide (device_id d = did).

Definition has_anomaly_id (aid : Z) (a : Anomaly) : bool :=
  bool_decide (a_id a = aid).

(** [Device.device_id == v]: the column holds strings, any other value
    matches no row. *)
Definition device_by (v : pyval) (rows : list Device) : option Device :=
  match v with
  | PStr did => first (has_device_id did) rows
  | _ => None
  end.

(** ** Handlers *)

Section Handlers.

(** [str()] of a number and [datetime.isoformat()]. *)
Variable str_num : Q -> string.
Variable isoformat : Z -> string.

(** The outcome of each [send_text] call during one handler run.  The
    clocks [datetime.utcnow()] and the database's [func.now()] are
    arguments of the handlers that read them. *)
Variable send_text : WebSocket -> Message -> bool.

(** One iteration of the save loop of [check_anomaly]: insert the row,
    commit, broadcast. *)
Definition save_anomaly (did : string) (db_now : Z) (s : State)
    (anomaly_data : Candidate) : State :=
  let anomaly :=
    {| a_id := next_id (a_id <$> anomalies s);
       a_device_id := did;
       a_timestamp := db_now;
       anomaly_type := c_type anomaly_data;
       reason := c_reason anomaly_data;
       severity := c_severity anomaly_data;
       resolved := "false" |} in
  broadcast_anomaly send_text
    (<["device_id" := PStr did]>
    (<["type" := PStr (c_type anomaly_data)]>
    (<["reason" := PStr (c_reason anomaly_data)]>
    (<["severity" := PStr (c_severity anomaly_data)]>
    (<["timestamp" := PStr (isoformat (a_timestamp anomaly))]> ∅)))))
    (set_anomalies (anomalies s ++ [anomaly]) s).

(** The body of the [try] block of [check_anomaly].  The device row is found
    under [telemetry_data["device_id"]], so the id written to the anomaly
    rows is the [device_id] of that row. *)
Definition check_anomaly_try (telemetry_data : gmap string pyval) (db_now : Z)
    (s : State) : result exn State :=
  v ← getitem telemetry_data "device_id";
  match device_by v (devices s) with
  | None => Ok s
  | Some device =>
      match threshold_config device with
      | None => Ok s
      | Some thresholds =>
          match size thresholds with
          | O => Ok s
          | S _ =>
              found ← anomalies_detected str_num telemetry_data thresholds;
              Ok (foldl (save_anomaly (device_id device) db_now) s found)
          end
      end
  end.

(** [check_anomaly]: any exception is caught and printed. *)
Definition check_anomaly (telemetry_data : gmap string pyval) (db_now : Z)
    (s : State) : State :=
  match check_anomaly_try telemetry_data db_now s with
  | Ok s' => s'
  | Raise e => set_stdout (stdout s ++ [e]) s
  end.

(** The [Telemetry] row built from the fields of [telemetry_data.dict()],
    with the id and timestamp the database assigns. *)
Definition new_telemetry (telemetry_data : TelemetryCreate) (db_now : Z)
    (rows : list Telemetry) : Telemetry :=
  {| t_id := next_id (t_id <$> rows);
     t_timestamp := db_now;
     t_device_id := tc_device_id telemetry_data;
     t_temperature := tc_temperature telemetry_data;
     t_battery := tc_battery telemetry_data;
     t_signal_strength := tc_signal_strength telemetry_data;
     t_cpu_usage := tc_cpu_usage telemetry_data;
     t_memory_usage := tc_memory_usage telemetry_data;
     t_disk_usage := tc_disk_usage telemetry_data |}.

(** [device.status = DeviceStatus.ONLINE; device.last_seen = utcnow]. *)
Definition mark_online (utcnow : Z) (d : Device) : Device :=
  {| id := id d; name := name d; device_id := device_id d;
     lat := lat d; lng := lng d;
     status := ONLINE; last_seen := Some utcnow;
     threshold_config := threshold_config d |}.

(** [submit_telemetry] of [routes/telemetry.py]. *)
Definition submit_telemetry (telemetry_data : TelemetryCreate)
    (utcnow db_now : Z) (s : State) : result HTTPError Telemetry * State :=
  match first (has_device_id (tc_device_id telemetry_data)) (devices s) with
  | None => (Raise (HTTPException 404 "Device not found"), s)
  | Some device =>
      let telemetry_row := new_telemetry telemetry_data db_now (telemetry s) in
      let s1 := set_telemetry (telemetry s ++ [telemetry_row]) s in
      let s2 := set_devices
        (update_first (has_device_id (tc_device_id telemetry_data))
           (mark_online utcnow) (devices s1)) s1 in
      let s3 := broadcast_telemetry send_text (dict telemetry_data) s2 in
      let s4 := set_background_tasks
        (background_tasks s3 ++ [dict telemetry_data]) s3 in
      (Ok telemetry_row, s4)
  end.

(** The background task queued by [submit_telemetry], run after the
    response: [check_anomaly(telemetry_data.dict(), db)]. *)
Definition run_background_task (db_now : Z) (s : State) : State :=
  match background_tasks s with
  | [] => s
  | telemetry_data :: rest =>
      check_anomaly telemetry_data db_now (set_background_tasks rest s)
  end.

(** [anomaly.resolved = "true"]. *)
Definition mark_resolved (a : Anomaly) : Anomaly :=
  {| a_id := a_id a; a_device_id := a_device_id a;
     a_timestamp := a_timestamp a; anomaly_type := anomaly_type a;
     reason := reason a; severity := severity a;
     resolved := "true" |}.

(** [resolve_anomaly] of [routes/telemetry.py]. *)
Definition resolve_anomaly (anomaly_id : Z) (s : State)
    : result HTTPError string * State :=
  match first (has_anomaly_id anomaly_id) (anomalies s) with
  | None => (Raise (HTTPException 404 "Anomaly not found"), s)
  | Some anomaly =>
      (Ok "Anomaly marked as resolved",
       set_anomalies
         (update_first (has_anomaly_id anomaly_id) mark_resolved (anomalies s)) s)
  end.

End Handlers.

(** ** Serial runs of the service *)

(** The requests the service handles, each with the part of the environment
    its handler reads. *)
Inductive Request : Type :=
  | Submit (telemetry_data : TelemetryCreate) (utcnow db_now : Z)
  | Background (db_now : Z)
  | Resolve (anomaly_id : Z)
  | Connect (accepted : bool) (websocket : WebSocket)
  | Disconnect (websocket : WebSocket).

Section Runs.

Variable str_num : Q -> string.
Variable isoformat : Z -> string.
Variable send_text : WebSocket -> Message -> bool.

(** The state after one request has been handled to completion. *)
Definition handle (s : State) (r : Request) : State :=
  match r with
  | Submit telemetry_data utcnow db_now =>
      (submit_telemetry send_text telemetry_data utcnow db_now s).2
  | Background db_now =>
      run_background_task str_num isoformat send_text db_now s
  | Resolve anomaly_id => (resolve_anomaly anomaly_id s).2
  | Connect accepted websocket =>
      set_manager (connect accepted websocket (active_connections s)).2 (wire s) s
  | Disconnect websocket =>
      set_manager (disconnect websocket (active_connections s)) (wire s) s
  end.

Definition run (s : State) (requests : list Request) : State :=
  foldl handle s requests.

End Runs.

(** Whether a request is a telemetry submission by device [did]. *)
Definition submits_for (did : string) (r : Request) : Prop :=
  match r with
  | Submit telemetry_data _ _ => tc_device_id telemetry_data = did
  | _ => False
  end.

(** The [last_seen] column of the device with id [did]. *)
Definition last_seen_of (did : string) (s : State) : option Z :=
  d ← first (has_device_id did) (devices s); last_seen d.

(** The [status] column of the device with id [did]. *)
Definition status_of (did : string) (s : State) : option DeviceStatus :=
  status <$> first (has_device_id did) (devices s).

(** ** Observations used in the statements *)

(** The type tag and severity of each candidate, in list order. *)
Definition tags (found : list Candidate) : list (string * string) :=
  (fun c => (c_type c, c_severity c)) <$> found.

(** The rule table of the specification on numbers, each metric giving at
    most one row; of the two temperature rows the first that applies. *)
Definition temperature_rule (temperature max min : Q) : list (string * string) :=
  if Qlt_le_dec max temperature then [("HIGH_TEMPERATURE", "high")]
  else if Qlt_le_dec temperature min then [("LOW_TEMPERATURE", "medium")]
  else [].

Definition battery_rule (battery min : Q) : list (string * string) :=
  if Qlt_le_dec battery min
  then [("LOW_BATTERY", if Qlt_le_dec battery 10 then "high" else "medium")]
  else [].

Definition signal_rule (signal_strength min : Q) : list (string * string) :=
  if Qlt_le_dec signal_strength min then [("WEAK_SIGNAL", "medium")] else [].

(** The keys of the sample that [check_anomaly] compares with thresholds. *)
Definition metric_keys : list string :=
  ["temperature"; "battery"; "signal_strength"].

Definition same_metrics (sample1 sample2 : gmap string pyval) : Prop :=
  forall k, k ∈ metric_keys -> sample1 !! k = sample2 !! k.

(** The candidate a stored anomaly row was written from. *)
Definition as_candidate (a : Anomaly) : Candidate :=
  {| c_type := anomaly_type a; c_reason := reason a; c_severity := severity a |}.

(** The candidates recorded between two states of the anomaly table. *)
Definition recorded (before after : State) : list Candidate :=
  as_candidate <$> drop (length (anomalies before)) (anomalies after).

(** What was printed between two states. *)
Definition printed (before after : State) : list exn :=
  drop (length (stdout before)) (stdout after).

(** What one run of [check_anomaly] records and prints, for a sample of a
    device with configuration [cfg]. *)
Definition evaluation (str_num : Q -> string) (telemetry_data : gmap string pyval)
    (cfg : option ThresholdConfig) : list Candidate * list exn :=
  match cfg with
  | None => ([], [])
  | Some thresholds =>
      match size thresholds with
      | O => ([], [])
      | S _ =>
          match anomalies_detected str_num telemetry_data thresholds with
          | Ok found => (found, [])
          | Raise e => ([], [e])
          end
      end
  end.

(** ** Sample data for the examples *)

(** Stand-ins for [str()] and [isoformat()] in the examples; the theorems
    hold for every rendering. *)
Definition plain_num (q : Q) : string :=
  pretty (Qnum q) +:+ "/" +:+ pretty (Zpos (Qden q)).

Definition plain_time (t : Z) : string := pretty t.

(** The thresholds [scripts/simulate_devices.py] registers every device
    with. *)
Definition simulator_thresholds : ThresholdConfig :=
  {[ "temperature" := {[ "min" := PNum 0; "max" := PNum 85 ]};
     "battery" := {[ "min" := PNum 20 ]};
     "signal_strength" := {[ "min" := PNum (-80) ]} ]}.

Definition device_row (pk : Z) (did : string) (st : DeviceStatus)
    (cfg : option ThresholdConfig) : Device :=
  {| id := pk; name := did; device_id := did; lat := None; lng := None;
     status := st; last_seen := None; threshold_config := cfg |}.

Definition state_with (rows : list Device) (conns : list WebSocket) : State :=
  {| devices := rows; telemetry := []; anomalies := [];
     active_connections := conns; wire := [];
     background_tasks := []; stdout := [] |}.

Definition sample (did : string) (temperature battery signal_strength : option Q)
    : TelemetryCreate :=
  {| tc_device_id := did; tc_temperature := temperature;
     tc_battery := battery; tc_signal_strength := signal_strength;
     tc_cpu_usage := None; tc_memory_usage := None; tc_disk_usage := None |}.

Definition anomaly_row (pk : Z) (did : string) (flag : string) : Anomaly :=
  {| a_id := pk; a_device_id := did; a_timestamp := 0;
     anomaly_type := "LOW_BATTERY"; reason := ""; severity := "medium";
     resolved := flag |}.

(** ** The read endpoints of [routes/telemetry.py] *)

(** Timestamps count microseconds on one time axis; [timedelta(hours=h)]. *)
Definition timedelta_hours (hours : Z) : Z := hours * 3600000000.

(** The order of [timestamp.desc()]: [a] may come before [b]. *)
Definition telemetry_desc (a b : Telemetry) : Prop := t_timestamp b <= t_timestamp a.

Definition anomaly_desc (a b : Anomaly) : Prop := a_timestamp b <= a_timestamp a.

#[global] Instance telemetry_desc_dec (a b : Telemetry) : Decision (telemetry_desc a b) :=
  decide (t_timestamp b <= t_timestamp a).

#[global] Instance anomaly_desc_dec (a b : Anomaly) : Decision (anomaly_desc a b) :=
  decide (a_timestamp b <= a_timestamp a).

(** [order_by(Telemetry.timestamp.desc())].  The database leaves the order
    of rows with equal timestamps open; here it is the one merge sort
    gives. *)
Definition newest_telemetry_first (rows : list Telemetry) : list Telemetry :=
  merge_sort telemetry_desc rows.

(** [order_by(Anomaly.timestamp.desc())]. *)
Definition newest_anomaly_first (rows : list Anomaly) : list Anomaly :=
  merge_sort anomaly_desc rows.

(** [query.offset(skip).limit(limit).all()]. *)
Definition page {A} (skip limit : nat) (rows : list A) : list A :=
  take limit (drop skip rows).

(** [get_telemetry].  [if device_id:] is false for [None] and for the empty
    string.  The bounds FastAPI checks on the query parameters ([hours] in
    1..168, [skip >= 0], [limit] in 1..1000) are hypotheses where a statement
    needs them. *)
Definition get_telemetry (device_id : option string) (hours : Z)
    (skip limit : nat) (utcnow : Z) (s : State) : list Telemetry :=
  let query := telemetry s in
  let query :=
    match device_id with
    | Some did =>
        if bool_decide (did = "") then query
        else filter (fun t => t_device_id t = did) query
    | None => query
    end in
  let since := utcnow - timedelta_hours hours in
  let query := filter (fun t => since <= t_timestamp t) query in
  page skip limit (newest_telemetry_first query).

(** [get_latest_telemetry]. *)
Definition get_latest_telemetry (device_id : string) (s : State)
    : result HTTPError Telemetry :=
  match newest_telemetry_first
          (filter (fun t => t_device_id t = device_id) (telemetry s)) with
  | [] => Raise (HTTPException 404 "No telemetry data found for this device")
  | row :: _ => Ok row
  end.

(** [get_anomalies]. *)
Definition get_anomalies (device_id : option string) (resolved_filter : option bool)
    (hours : Z) (skip limit : nat) (utcnow : Z) (s : State) : list Anomaly :=
  let query := anomalies s in
  let query :=
    match device_id with
    | Some did =>
        if bool_decide (did = "") then query
        else filter (fun a => a_device_id a = did) query
    | None => query
    end in
  let query :=
    match resolved_filter with
    | Some b =>
        let resolved_str := if b : bool then "true" else "false" in
        filter (fun a => resolved a = resolved_str) query
    | None => query
    end in
  let since := utcnow - timedelta_hours hours in
  let query := filter (fun a => since <= a_timestamp a) query in
  page skip limit (newest_anomaly_first query).

(** ** The rest of [routes/websocket.py] *)

(** [ConnectionManager.send_personal_message]: one [send_text]; when it
    raises, the handle is disconnected.  Returns whether the call returned
    and the new live list. *)
Definition send_personal_message {M} (send_text : WebSocket -> M -> bool)
    (message : M) (websocket : WebSocket) (conns : list WebSocket)
    : bool * list WebSocket :=
  if send_text websocket message then (true, conns)
  else (false, disconnect websocket conns).





(** [broadcast_device_status]. *)
Definition broadcast_device_status (send_text : WebSocket -> Message -> bool)
    (device_data : gmap string pyval) (s : State) : State :=
  manager_broadcast send_text {| m_type := "device_status"; m_data := device_data |} s.

(** ** [prepare_features] of [anomaly-detector/main.py] *)



(** Whether a row of device [did] passes the [device_id] filter of the list
    endpoints. *)
Definition passes_device_filter (device_id : option string) (did : string) : Prop :=
  match device_id with
  | Some wanted => wanted = "" \/ did = wanted
  | None => True
  end.

#[global] Instance passes_device_filter_dec device_id did :
  Decision (passes_device_filter device_id did).
Proof. destruct device_id; simpl; apply _. Defined.

(** ** Conditions on the tables *)

(** The unique columns hold no value twice. *)
Definition keys_unique (s : State) : Prop :=
  NoDup (device_id <$> devices s)
  /\ NoDup (t_id <$> telemetry s)
  /\ NoDup (a_id <$> anomalies s).

(** Every telemetry row and every anomaly row names a registered device. *)
Definition references_resolve (s : State) : Prop :=
  Forall (fun t => t_device_id t ∈ device_id <$> devices s) (telemetry s)
  /\ Forall (fun a => a_device_id a ∈ device_id <$> devices s) (anomalies s).

(** An anomaly row and a later version of it: the same row, or the row with
    [resolved] set to ["true"]. *)
Definition later_version (a a' : Anomaly) : Prop :=
  a' = a \/ a' = mark_resolved a.

(** A later content of the anomaly table: the old rows in their places,
    each in a later version, followed by new rows. *)
Definition anomalies_evolve (rows rows' : list Anomaly) : Prop :=
  exists front more, rows' = front ++ more /\ Forall2 later_version rows front.

(** ** What subscribers and the database see *)

(** The messages whose [send_text] to [c] returned, in call order. *)
Definition received_by (c : WebSocket) (calls : list Send) : list Message :=
  (fun call => call.1.2) <$> filter (fun call => call.1.1 = c /\ call.2 = true) calls.

(** The envelope [check_anomaly] broadcasts for a stored anomaly row. *)
Definition anomaly_envelope (isoformat : Z -> string) (a : Anomaly) : Message :=
  {| m_type := "anomaly";
     m_data :=
       <["device_id" := PStr (a_device_id a)]>
       (<["type" := PStr (anomaly_type a)]>
       (<["reason" := PStr (reason a)]>
       (<["severity" := PStr (severity a)]>
       (<["timestamp" := PStr (isoformat (a_timestamp a))]> ∅)))) |}.

(** The part of the state that is in the database or printed: everything
    but the connection manager. *)
Definition stored (s : State)
    : list Device * list Telemetry * list Anomaly
      * list (gmap string pyval) * list exn :=
  (devices s, telemetry s, anomalies s, background_tasks s, stdout s).



(** ** Device administration: [routes/devices.py] and [utils/logging.py] *)

(** [AuditLog] of [models/telemetry.py]. *)
Record AuditLog : Type := {
  al_id : Z;
  admin_id : Z;
  action : string;
  al_timestamp : Z;
  target_id : option string;
  details : option string
}.

(** The service state with the audit table. *)
Record Service : Type := {
  core : State;
  audit_logs : list AuditLog
}.

(** What leaves a device handler: an [HTTPException], or the
    [IntegrityError] of a commit the database rejects. *)
Inductive AdminError : Type :=
  | Http (e : HTTPError)
  | IntegrityError.

(** [DeviceCreate] of [schemas/telemetry.py]. *)
Record DeviceCreate : Type := {
  dc_name : string;
  dc_device_id : string;
  dc_lat : option Q;
  dc_lng : option Q;
  dc_threshold_config : option ThresholdConfig
}.

(** [DeviceUpdate] as [dict(exclude_unset=True)] sees it: a field is unset
    ([None]) or set ([Some v]), and may be set to null ([Some None]). *)
Record DeviceUpdate : Type := {
  du_name : option (option string);
  du_lat : option (option Q);
  du_lng : option (option Q);
  du_threshold_config : option (option ThresholdConfig)
}.

(** [log_audit]: one row appended to the audit table. *)
Definition log_audit (admin : Z) (act : string) (target info : option string)
    (db_now : Z) (logs : list AuditLog) : list AuditLog :=
  logs ++ [ {| al_id := next_id (al_id <$> logs); admin_id := admin;
               action := act; al_timestamp := db_now;
               target_id := target; details := info |} ].

(** [get_device]. *)
Definition get_device (device_id : string) (sv : Service) : result HTTPError Device :=
  match first (has_device_id device_id) (devices (core sv)) with
  | None => Raise (HTTPException 404 "Device not found")
  | Some device => Ok device
  end.

(** The row [Device] built from the fields of [device_data.dict()], with the
    defaults of the columns: [status] OFFLINE, [last_seen] null. *)
Definition new_device (device_data : DeviceCreate) (rows : list Device) : Device :=
  {| id := next_id (id <$> rows);
     name := dc_name device_data;
     device_id := dc_device_id device_data;
     lat := dc_lat device_data;
     lng := dc_lng device_data;
     status := OFFLINE;
     last_seen := None;
     threshold_config := dc_threshold_config device_data |}.

(** [create_device]; [current_user] is the id of the authenticated user. *)
Definition create_device (device_data : DeviceCreate) (current_user db_now : Z)
    (sv : Service) : result AdminError Device * Service :=
  match first (has_device_id (dc_device_id device_data)) (devices (core sv)) with
  | Some existing_device =>
      (Raise (Http (HTTPException 400 "Device with this ID already exists")), sv)
  | None =>
      let device := new_device device_data (devices (core sv)) in
      (Ok device,
       {| core := set_devices (devices (core sv) ++ [device]) (core sv);
          audit_logs :=
            log_audit current_user "CREATE_DEVICE" (Some (device_id device))
              (Some ("Created device " +:+ name device)) db_now (audit_logs sv) |})
  end.

(** A field after [setattr] for each set field. *)
Definition updated {A} (field : option A) (old : A) : A :=
  match field with
  | Some v => v
  | None => old
  end.

(** The [setattr] loop of [update_device]; [name] is looked at separately. *)
Definition apply_update (u : DeviceUpdate) (d : Device) : Device :=
  {| id := id d;
     name := match du_name u with Some (Some n) => n | _ => name d end;
     device_id := device_id d;
     lat := updated (du_lat u) (lat d);
     lng := updated (du_lng u) (lng d);
     status := status d;
     last_seen := last_seen d;
     threshold_config := updated (du_threshold_config u) (threshold_config d) |}.

(** [device.device_id], for use where a parameter carries that name. *)
Definition device_key (d : Device) : string := device_id d.

(** [update_device].  Setting [name], a column that is not nullable, to
    null makes the commit fail. *)
Definition update_device (device_id : string) (device_data : DeviceUpdate)
    (current_user db_now : Z) (sv : Service) : result AdminError Device * Service :=
  match first (has_device_id device_id) (devices (core sv)) with
  | None => (Raise (Http (HTTPException 404 "Device not found")), sv)
  | Some device =>
      match du_name device_data with
      | Some None => (Raise IntegrityError, sv)
      | _ =>
          let device' := apply_update device_data device in
          (Ok device',
           {| core := set_devices
                (update_first (has_device_id device_id) (apply_update device_data)
                   (devices (core sv))) (core sv);
              audit_logs :=
                log_audit current_user "UPDATE_DEVICE" (Some (device_key device'))
                  (Some ("Updated device " +:+ name device')) db_now (audit_logs sv) |})
      end
  end.

(** [db.delete(device)]: the row [first] returned leaves the table. *)
Fixpoint delete_first {A} (p : A -> bool) (rows : list A) : list A :=
  match rows with
  | [] => []
  | r :: rows' => if p r then rows' else r :: delete_first p rows'
  end.

(** Whether a telemetry or anomaly row names the device. *)
Definition referenced (did : string) (s : State) : bool :=
  existsb (fun t => bool_decide (t_device_id t = did)) (telemetry s)
  || existsb (fun a => bool_decide (a_device_id a = did)) (anomalies s).

(** [delete_device].  [fk_enforced] tells whether the database enforces the
    foreign keys of [telemetry.device_id] and [anomalies.device_id]; when it
    does, the commit fails for a device some row names. *)
Definition delete_device (fk_enforced : bool) (device_id : string)
    (current_user db_now : Z) (sv : Service) : result AdminError string * Service :=
  match first (has_device_id device_id) (devices (core sv)) with
  | None => (Raise (Http (HTTPException 404 "Device not found")), sv)
  | Some device =>
      if fk_enforced && referenced device_id (core sv)
      then (Raise IntegrityError, sv)
      else
        let device_name := name device in
        (Ok "Device deleted successfully",
         {| core := set_devices
              (delete_first (has_device_id device_id) (devices (core sv))) (core sv);
            audit_logs :=
              log_audit current_user "DELETE_DEVICE" (Some device_id)
                (Some ("Deleted device " +:+ device_name)) db_now (audit_logs sv) |})
  end.

(** The device requests beside the requests of the core. *)
Inductive AdminRequest : Type :=
  | OfCore (r : Request)
  | CreateDevice (device_data : DeviceCreate) (current_user db_now : Z)
  | UpdateDevice (did : string) (device_data : DeviceUpdate) (current_user db_now : Z)
  | DeleteDevice (did : string) (current_user db_now : Z).

Section AdminRuns.

Variable str_num : Q -> string.
Variable isoformat : Z -> string.
Variable send_text : WebSocket -> Message -> bool.
Variable fk_enforced : bool.

Definition handle_admin (sv : Service) (r : AdminRequest) : Service :=
  match r with
  | OfCore r' =>
      {| core := handle str_num isoformat send_text (core sv) r';
         audit_logs := audit_logs sv |}
  | CreateDevice device_data current_user db_now =>
      (create_device device_data current_user db_now sv).2
  | UpdateDevice did device_data current_user db_now =>
      (update_device did device_data current_user db_now sv).2
  | DeleteDevice did current_user db_now =>
      (delete_device fk_enforced did current_user db_now sv).2
  end.

Definition run_admin (sv : Service) (requests : list AdminRequest) : Service :=
  foldl handle_admin sv requests.

End AdminRuns.

(** The unique columns of all tables hold no value twice. *)
Definition service_keys_unique (sv : Service) : Prop :=
  keys_unique (core sv)
  /\ NoDup (id <$> devices (core sv))
  /\ NoDup (al_id <$> audit_logs sv).

Definition telemetry_row (pk : Z) (did : string) (at_time : Z) : Telemetry :=
  {| t_id := pk; t_timestamp := at_time; t_device_id := did;
     t_temperature := None; t_battery := None; t_signal_strength := None;
     t_cpu_usage := None; t_memory_usage := None; t_disk_usage := None |}.

(** Two devices, three samples, two anomalies, three subscribers. *)
Definition demo_state : State :=
  {| devices := [device_row 1 "dev-1" OFFLINE (Some simulator_thresholds);
                 device_row 2 "dev-2" ONLINE None];
     telemetry := [telemetry_row 1 "dev-1" 10; telemetry_row 2 "dev-2" 20;
                   telemetry_row 3 "dev-1" 30];
     anomalies := [anomaly_row 1 "dev-1" "false"; anomaly_row 2 "dev-2" "true"];
     active_connections := [1%nat; 2%nat; 3%nat];
     wire := [];
     background_tasks := [];
     stdout := [] |}.

Definition demo_service : Service :=
  {| core := demo_state; audit_logs := [] |}.

(** A subscriber set in which only handle 1 can be reached. *)
Definition only_first (c : WebSocket) (m : Message) : bool := bool_decide (c = 1%nat).

(** The application clock values of the submissions of a run, in order. *)
Definition submission_times (requests : list Request) : list Z :=
  omap (fun r => match r with Submit _ utcnow _ => Some utcnow | _ => None end)
       requests.

(** * Properties *)

(** ** Queries *)

Lemma first_None_iff {A} (p : A -> bool) (rows : list A) :
  first p rows = None <-> Forall (fun r => p r = false) rows.
Proof.
  unfold first. induction rows as [|r rows IH]; simpl.
  - split; [constructor | reflexivity].
  - destruct (p r) eqn:Hp.
    + split; [discriminate | intros H; inversion H; congruence].
    + rewrite IH. split; [by constructor | by inversion 1].
Qed.

Lemma first_Some_holds {A} (p : A -> bool) (rows : list A) (r : A) :
  first p rows = Some r -> p r = true /\ r ∈ rows.
Proof.
  unfold first. intros H. apply List.find_some in H as [Hin Hp].
  split; [done | by apply list_elem_of_In].
Qed.

Lemma first_device_unknown (did : string) (rows : list Device) :
  did ∉ device_id <$> rows -> first (has_device_id did) rows = None.
Proof.
  intros Hnot. apply first_None_iff, Forall_forall. intros d Hd.
  unfold has_device_id. apply bool_decide_eq_false. intros <-.
  apply Hnot, list_elem_of_fmap. by exists d.
Qed.

Lemma first_device_known (did : string) (rows : list Device) :
  did ∈ device_id <$> rows ->
  exists d, first (has_device_id did) rows = Some d /\ device_id d = did.
Proof.
  intros Hin. destruct (first (has_device_id did) rows) as [d|] eqn:Hf.
  - exists d. split; [done|]. apply first_Some_holds in Hf as [Hp _].
    by apply bool_decide_eq_true in Hp.
  - exfalso. apply first_None_iff in Hf.
    apply list_elem_of_fmap in Hin as (d & -> & Hd).
    rewrite Forall_forall in Hf. specialize (Hf d Hd).
    unfold has_device_id in Hf. by apply bool_decide_eq_false in Hf.
Qed.

Lemma first_anomaly_unknown (aid : Z) (rows : list Anomaly) :
  aid ∉ a_id <$> rows -> first (has_anomaly_id aid) rows = None.
Proof.
  intros Hnot. apply first_None_iff, Forall_forall. intros a Ha.
  unfold has_anomaly_id. apply bool_decide_eq_false. intros <-.
  apply Hnot, list_elem_of_fmap. by exists a.
Qed.

Lemma first_anomaly_known (aid : Z) (rows : list Anomaly) :
  aid ∈ a_id <$> rows ->
  exists a, first (has_anomaly_id aid) rows = Some a /\ a_id a = aid.
Proof.
  intros Hin. destruct (first (has_anomaly_id aid) rows) as [a|] eqn:Hf.
  - exists a. split; [done|]. apply first_Some_holds in Hf as [Hp _].
    by apply bool_decide_eq_true in Hp.
  - exfalso. apply first_None_iff in Hf.
    apply list_elem_of_fmap in Hin as (a & -> & Ha).
    rewrite Forall_forall in Hf. specialize (Hf a Ha).
    unfold has_anomaly_id in Hf. by apply bool_decide_eq_false in Hf.
Qed.

Lemma device_by_Some (v : pyval) (rows : list Device) (d : Device) :
  device_by v rows = Some d -> v = PStr (device_id d).
Proof.
  destruct v as [|q|did]; simpl; try discriminate.
  intros Hfirst. apply first_Some_holds in Hfirst as [Hp _].
  apply bool_decide_eq_true in Hp. by rewrite Hp.
Qed.

(** After an in-place update that keeps the key, the same query returns the
    updated row. *)
Lemma first_update_first {A} (p : A -> bool) (f : A -> A) (rows : list A) (r : A) :
  (forall x, p x = true -> p (f x) = true) ->
  first p rows = Some r ->
  first p (update_first p f rows) = Some (f r).
Proof.
  intros Hkeep. unfold first. induction rows as [|x rows IH]; simpl; [done|].
  destruct (p x) eqn:Hp; simpl.
  - intros [= ->]. by rewrite (Hkeep _ Hp).
  - rewrite Hp. apply IH.
Qed.

(** An update under one key does not change what a query under a disjoint
    key returns. *)
Lemma first_update_other {A} (p q : A -> bool) (f : A -> A) (rows : list A) :
  (forall x, q x = true -> p x = false) ->
  (forall x, p (f x) = p x) ->
  first p (update_first q f rows) = first p rows.
Proof.
  intros Hdisj Hf. unfold first. induction rows as [|x rows IH]; simpl; [done|].
  destruct (q x) eqn:Hq; simpl.
  - by rewrite Hf, (Hdisj _ Hq).
  - by rewrite IH.
Qed.

Lemma update_first_idem {A} (p : A -> bool) (f : A -> A) (rows : list A) :
  (forall x, p x = true -> p (f x) = true) ->
  (forall x, f (f x) = f x) ->
  update_first p f (update_first p f rows) = update_first p f rows.
Proof.
  intros Hkeep Hidem. induction rows as [|x rows IH]; simpl; [done|].
  destruct (p x) eqn:Hp; simpl.
  - by rewrite (Hkeep _ Hp), Hidem.
  - by rewrite Hp, IH.
Qed.

Lemma update_first_keys {A K} (key : A -> K) (p : A -> bool) (f : A -> A)
    (rows : list A) :
  (forall x, key (f x) = key x) ->
  key <$> update_first p f rows = key <$> rows.
Proof.
  intros Hkey. induction rows as [|x rows IH]; [done|].
  simpl update_first.
  destruct (p x); rewrite !fmap_cons; [by rewrite Hkey | by rewrite IH].
Qed.

(** ** C1: unknown device *)

(** C1.  A submission whose [device_id] is the id of no row of the device
    table fails with the 404 "Device not found" and leaves the whole state as
    it was: no telemetry row, no change to any device, nothing sent to a
    subscriber, no background task queued. *)
Theorem submit_unknown_device_no_effect
    (send_text : WebSocket -> Message -> bool)
    (telemetry_data : TelemetryCreate) (utcnow db_now : Z) (s : State) :
  tc_device_id telemetry_data ∉ device_id <$> devices s ->
  submit_telemetry send_text telemetry_data utcnow db_now s
    = (Raise (HTTPException 404 "Device not found"), s).
Proof.
  intros Hunknown. unfold submit_telemetry.
  by rewrite (first_device_unknown _ _ Hunknown).
Qed.

(** ** C6: resolving an anomaly *)

Lemma mark_resolved_idem (a : Anomaly) : mark_resolved (mark_resolved a) = mark_resolved a.
Proof. reflexivity. Qed.

Lemma mark_resolved_keeps_id (aid : Z) (a : Anomaly) :
  has_anomaly_id aid a = true -> has_anomaly_id aid (mark_resolved a) = true.
Proof. done. Qed.

(** C6.  [resolve_anomaly] on an id held by no stored anomaly fails with the
    404 "Anomaly not found" and leaves the state as it was.  On an id that is
    stored it succeeds and the anomaly found under that id has
    [resolved = "true"]; a second call on the same id succeeds as well and
    changes nothing: the state after it is the state before it. *)
Theorem resolve_anomaly_idempotent (anomaly_id : Z) (s : State) :
  (anomaly_id ∉ a_id <$> anomalies s ->
     resolve_anomaly anomaly_id s
       = (Raise (HTTPException 404 "Anomaly not found"), s))
  /\
  (anomaly_id ∈ a_id <$> anomalies s ->
     exists msg s1 a1,
       resolve_anomaly anomaly_id s = (Ok msg, s1)
       /\ first (has_anomaly_id anomaly_id) (anomalies s1) = Some a1
       /\ resolved a1 = "true"
       /\ a_id <$> anomalies s1 = a_id <$> anomalies s
       /\ resolve_anomaly anomaly_id s1 = (Ok msg, s1)).
Proof.
  split.
  - intros Hunknown. unfold resolve_anomaly.
    by rewrite (first_anomaly_unknown _ _ Hunknown).
  - intros Hknown.
    destruct (first_anomaly_known _ _ Hknown) as (a & Hfirst & Hid).
    pose proof (first_update_first _ mark_resolved _ _
                  (mark_resolved_keeps_id anomaly_id) Hfirst) as Hafter.
    unfold resolve_anomaly at 1. rewrite Hfirst.
    eexists _, _, (mark_resolved a). split; [reflexivity|].
    split; [exact Hafter|]. split; [reflexivity|].
    split; [by apply update_first_keys|].
    unfold resolve_anomaly. simpl anomalies. rewrite Hafter.
    f_equal. unfold set_anomalies. simpl. f_equal.
    apply update_first_idem; [apply mark_resolved_keeps_id | apply mark_resolved_idem].
Qed.

(** ** C9: no threshold configuration *)

(** C9.  When the device of the sample has no threshold configuration
    ([None], or the empty dict), [check_anomaly] returns at once, whatever the
    metrics of the sample are: no anomaly row is written, nothing is sent to
    a subscriber and nothing is printed; the state is left as it was. *)
Theorem check_anomaly_no_threshold_config
    (str_num : Q -> string) (isoformat : Z -> string)
    (send_text : WebSocket -> Message -> bool)
    (telemetry_data : gmap string pyval) (did : string) (device : Device)
    (db_now : Z) (s : State) :
  telemetry_data !! "device_id" = Some (PStr did) ->
  first (has_device_id did) (devices s) = Some device ->
  threshold_config device = None \/ threshold_config device = Some ∅ ->
  check_anomaly str_num isoformat send_text telemetry_data db_now s = s.
Proof.
  intros Hid Hdev Hcfg. unfold check_anomaly, check_anomaly_try, getitem.
  rewrite Hid. simpl. rewrite Hdev.
  destruct Hcfg as [-> | ->]; [done|].
  by rewrite map_size_empty.
Qed.

(** ** What the handlers leave alone *)

Lemma devices_manager_broadcast send_text message s :
  devices (manager_broadcast send_text message s) = devices s.
Proof. unfold manager_broadcast. by destruct (broadcast _ _ _). Qed.

Lemma anomalies_manager_broadcast send_text message s :
  anomalies (manager_broadcast send_text message s) = anomalies s.
Proof. unfold manager_broadcast. by destruct (broadcast _ _ _). Qed.

Lemma devices_save_anomaly isoformat send_text did db_now s c :
  devices (save_anomaly isoformat send_text did db_now s c) = devices s.
Proof.
  unfold save_anomaly, broadcast_anomaly. by rewrite devices_manager_broadcast.
Qed.

Lemma devices_save_loop isoformat send_text did db_now cs s :
  devices (foldl (save_anomaly isoformat send_text did db_now) s cs) = devices s.
Proof.
  revert s. induction cs as [|c cs IH]; intros s; simpl; [done|].
  by rewrite IH, devices_save_anomaly.
Qed.

Lemma devices_check_anomaly str_num isoformat send_text telemetry_data db_now s :
  devices (check_anomaly str_num isoformat send_text telemetry_data db_now s)
    = devices s.
Proof.
  unfold check_anomaly, check_anomaly_try.
  destruct (getitem telemetry_data "device_id") as [v|e]; simpl; [|done].
  destruct (device_by v (devices s)) as [device|]; [|done].
  destruct (threshold_config device) as [thresholds|]; [|done].
  destruct (size thresholds); [done|].
  destruct (anomalies_detected str_num telemetry_data thresholds) as [found|e];
    simpl; [|done].
  apply devices_save_loop.
Qed.

Lemma devices_submit_telemetry send_text telemetry_data utcnow db_now s :
  devices (submit_telemetry send_text telemetry_data utcnow db_now s).2
    = update_first (has_device_id (tc_device_id telemetry_data))
        (mark_online utcnow) (devices s).
Proof.
  unfold submit_telemetry.
  destruct (first _ (devices s)) as [device|] eqn:Hfirst; simpl.
  - unfold broadcast_telemetry. by rewrite devices_manager_broadcast.
  - apply first_None_iff in Hfirst. clear -Hfirst.
    induction Hfirst as [|d rows Hd _ IH]; simpl; [done|].
    by rewrite Hd, <- IH.
Qed.

(** A request that is not a submission by [did] leaves the row of [did] as
    it was. *)
Lemma handle_other_keeps_device str_num isoformat send_text did s r :
  ~ submits_for did r ->
  first (has_device_id did) (devices (handle str_num isoformat send_text s r))
    = first (has_device_id did) (devices s).
Proof.
  intros Hother. destruct r as [td utcnow db_now|db_now|aid|acc ws|ws]; simpl.
  - rewrite devices_submit_telemetry. apply first_update_other; [|done].
    intros d Hd. unfold has_device_id in *.
    apply bool_decide_eq_true in Hd. apply bool_decide_eq_false.
    simpl in Hother. congruence.
  - unfold run_background_task. destruct (background_tasks s); [done|].
    by rewrite devices_check_anomaly.
  - unfold resolve_anomaly. by destruct (first _ (anomalies s)).
  - done.
  - done.
Qed.

Lemma run_others_keeps_device str_num isoformat send_text did requests s :
  Forall (fun r => ~ submits_for did r) requests ->
  first (has_device_id did) (devices (run str_num isoformat send_text s requests))
    = first (has_device_id did) (devices s).
Proof.
  intros Hothers. unfold run. revert s.
  induction Hothers as [|r requests Hr _ IH]; intros s; simpl; [done|].
  by rewrite IH, handle_other_keeps_device.
Qed.

(** ** C4: a submission marks the device online *)

Lemma mark_online_keeps_id (did : string) (utcnow : Z) (d : Device) :
  has_device_id did d = true -> has_device_id did (mark_online utcnow d) = true.
Proof. done. Qed.

Lemma submit_known_device send_text telemetry_data utcnow db_now s d :
  first (has_device_id (tc_device_id telemetry_data)) (devices s) = Some d ->
  exists row s',
    submit_telemetry send_text telemetry_data utcnow db_now s = (Ok row, s')
    /\ first (has_device_id (tc_device_id telemetry_data)) (devices s')
         = Some (mark_online utcnow d).
Proof.
  intros Hfirst.
  pose proof (devices_submit_telemetry send_text telemetry_data utcnow db_now s)
    as Hdev.
  destruct (submit_telemetry send_text telemetry_data utcnow db_now s)
    as [res s'] eqn:Hsub.
  simpl in Hdev.
  assert (exists row, res = Ok row) as [row ->].
  { unfold submit_telemetry in Hsub. rewrite Hfirst in Hsub.
    injection Hsub as <- _. eauto. }
  exists row, s'. split; [done|]. rewrite Hdev.
  by apply first_update_first; [apply mark_online_keeps_id|].
Qed.

(** C4.  A submission for a device that is in the table succeeds, and
    afterwards that device has status [ONLINE] and [last_seen] equal to the
    submission time [utcnow], whatever its status was before.  Hence for two
    submissions of one device at times [t1 <= t2], with any requests other
    than submissions of that device handled in between, [last_seen] after the
    first is [t1], is still [t1] when the second arrives, and is [t2] after
    the second: it does not decrease. *)
Theorem submit_sets_online_and_last_seen
    (str_num : Q -> string) (isoformat : Z -> string)
    (send_text : WebSocket -> Message -> bool)
    (first_data second_data : TelemetryCreate) (t1 t2 db1 db2 : Z)
    (between : list Request) (s : State) :
  tc_device_id first_data ∈ device_id <$> devices s ->
  tc_device_id second_data = tc_device_id first_data ->
  Forall (fun r => ~ submits_for (tc_device_id first_data) r) between ->
  t1 <= t2 ->
  let did := tc_device_id first_data in
  exists row1 s1 row2 s2,
    submit_telemetry send_text first_data t1 db1 s = (Ok row1, s1)
    /\ status_of did s1 = Some ONLINE
    /\ last_seen_of did s1 = Some t1
    /\ last_seen_of did (run str_num isoformat send_text s1 between) = Some t1
    /\ submit_telemetry send_text second_data t2 db2
         (run str_num isoformat send_text s1 between) = (Ok row2, s2)
    /\ status_of did s2 = Some ONLINE
    /\ last_seen_of did s2 = Some t2
    /\ (forall v1 v2, last_seen_of did s1 = Some v1 ->
                      last_seen_of did s2 = Some v2 -> v1 <= v2).
Proof.
  intros Hknown Hsame Hbetween Hle did.
  destruct (first_device_known _ _ Hknown) as (d & Hfirst & _).
  destruct (submit_known_device send_text first_data t1 db1 s d Hfirst)
    as (row1 & s1 & Hsub1 & Hdev1).
  pose proof (run_others_keeps_device str_num isoformat send_text did between s1
                Hbetween) as Hkeep.
  fold did in Hdev1. rewrite Hdev1 in Hkeep.
  destruct (submit_known_device send_text second_data t2 db2
              (run str_num isoformat send_text s1 between) (mark_online t1 d))
    as (row2 & s2 & Hsub2 & Hdev2).
  { by rewrite Hsame. }
  rewrite Hsame in Hdev2. fold did in Hdev2.
  exists row1, s1, row2, s2.
  unfold status_of, last_seen_of. rewrite Hdev1, Hkeep, Hdev2. simpl.
  repeat split; try done.
  intros v1 v2 [= <-] [= <-]. exact Hle.
Qed.

(** ** C5: broadcast isolates a failing subscriber *)

Lemma send_loop_calls send_text message conns :
  (send_loop send_text message conns).1
    = (fun c => (c, message, send_text c message)) <$> conns.
Proof.
  induction conns as [|c conns IH]; [done|].
  rewrite fmap_cons, <- IH. simpl send_loop.
  destruct (send_loop send_text message conns) as [calls disconnected].
  by destruct (send_text c message).
Qed.

Lemma send_loop_disconnected send_text message conns :
  (send_loop send_text message conns).2
    = filter (fun c => send_text c message = false) conns.
Proof.
  induction conns as [|c conns IH]; [done|].
  rewrite filter_cons, <- IH. simpl send_loop.
  destruct (send_loop send_text message conns) as [calls disconnected].
  by destruct (send_text c message).
Qed.

Lemma remove_first_skip (x : WebSocket) (pre post : list WebSocket) :
  x ∉ pre -> remove_first x (pre ++ x :: post) = pre ++ post.
Proof.
  induction pre as [|y pre IH]; intros Hnot; simpl.
  - by rewrite decide_True.
  - apply not_elem_of_cons in Hnot as [Hne Hnot].
    by rewrite decide_False, IH.
Qed.

(** The second loop of [broadcast] removes exactly the entries whose send
    raised, and keeps the others in order. *)
Lemma prune_disconnected (bad : WebSocket -> bool) (pre conns : list WebSocket) :
  Forall (fun c => bad c = false) pre ->
  foldl (fun live c => disconnect c live) (pre ++ conns)
        (filter (fun c => bad c = true) conns)
    = pre ++ filter (fun c => bad c = false) conns.
Proof.
  revert pre. induction conns as [|c conns IH]; intros pre Hpre; [done|].
  rewrite !filter_cons. destruct (bad c) eqn:Hc.
  - rewrite decide_True, decide_False by done. simpl.
    assert (c ∉ pre) as Hnot.
    { intros Hin. rewrite Forall_forall in Hpre. specialize (Hpre c Hin). congruence. }
    unfold disconnect at 2. rewrite bool_decide_eq_true_2 by set_solver.
    rewrite remove_first_skip by done. by apply IH.
  - rewrite decide_False, decide_True by done.
    rewrite (cons_middle c pre conns), app_assoc.
    rewrite IH; [by rewrite <- app_assoc|].
    apply Forall_app. split; [done|]. by repeat constructor.
Qed.

Lemma broadcast_spec send_text message conns :
  broadcast send_text message conns
    = ((fun c => (c, message, send_text c message)) <$> conns,
       filter (fun c => send_text c message = true) conns).
Proof.
  unfold broadcast.
  pose proof (send_loop_calls send_text message conns) as Hcalls.
  pose proof (send_loop_disconnected send_text message conns) as Hdis.
  destruct (send_loop send_text message conns) as [calls disconnected].
  simpl in *. subst. f_equal.
  pose proof (prune_disconnected (fun c => negb (send_text c message)) [] conns)
    as Hprune.
  simpl in Hprune.
  erewrite (list_filter_iff _ (fun c => negb (send_text c message) = true)).
  - rewrite Hprune by constructor. apply list_filter_iff.
    intros c. by destruct (send_text c message).
  - intros c. by destruct (send_text c message).
Qed.

Lemma attempted_broadcast send_text message conns :
  attempted (broadcast send_text message conns).1 = conns.
Proof.
  rewrite broadcast_spec. unfold attempted. simpl.
  rewrite <- list_fmap_compose. induction conns; simpl; [done|]. by f_equal.
Qed.

Lemma delivered_broadcast send_text message conns :
  delivered (broadcast send_text message conns).1
    = filter (fun c => send_text c message = true) conns.
Proof.
  rewrite broadcast_spec. unfold delivered, attempted. simpl.
  induction conns as [|c conns IH]; [done|].
  rewrite fmap_cons, !filter_cons. simpl.
  destruct (send_text c message) eqn:Hc.
  - rewrite !decide_True by done. rewrite fmap_cons. simpl. by rewrite IH.
  - rewrite !decide_False by done. apply IH.
Qed.

Lemma filter_agree (P Q : WebSocket -> Prop)
    `{!forall c, Decision (P c)} `{!forall c, Decision (Q c)} (conns : list WebSocket) :
  (forall c, c ∈ conns -> P c <-> Q c) -> filter P conns = filter Q conns.
Proof.
  induction conns as [|c conns IH]; intros Hagree; [done|].
  rewrite !filter_cons.
  assert (filter P conns = filter Q conns) as ->.
  { apply IH. intros x Hx. apply Hagree. by right. }
  pose proof (Hagree c ltac:(left)) as Hc.
  destruct (decide (P c)), (decide (Q c)); tauto.
Qed.

Lemma filter_but_one (broken : WebSocket) (conns : list WebSocket) :
  NoDup conns -> broken ∈ conns ->
  S (length (filter (fun c => c <> broken) conns)) = length conns.
Proof.
  induction 1 as [|c conns Hc Hnd IH]; intros Hin; [by apply elem_of_nil in Hin|].
  rewrite filter_cons. simpl. destruct (decide (c = broken)) as [->|Hne].
  - rewrite decide_False by (intros H; by apply H).
    f_equal. f_equal. clear -Hc. induction conns as [|x conns IH]; [done|].
    apply not_elem_of_cons in Hc as [Hne Hc].
    rewrite filter_cons, decide_True by done. simpl. f_equal. by apply IH.
  - rewrite decide_True by done. simpl. f_equal. apply IH.
    apply elem_of_cons in Hin as [?|?]; [congruence|done].
Qed.

(** C5.  Take a broadcast over [N] distinct handles where [send_text] raises
    for the handle [broken] and returns for the others.  [send_text] is
    called once on every handle, in list order; it returns for each of the
    [N-1] other handles; the live list afterwards is the old one without
    [broken]; and the calls of any later broadcast are exactly on that list. *)
Theorem broadcast_isolates_failure
    (send_text : WebSocket -> Message -> bool) (message : Message)
    (conns : list WebSocket) (broken : WebSocket) :
  NoDup conns ->
  broken ∈ conns ->
  send_text broken message = false ->
  (forall c, c ∈ conns -> c <> broken -> send_text c message = true) ->
  exists calls live,
    broadcast send_text message conns = (calls, live)
    /\ attempted calls = conns
    /\ delivered calls = filter (fun c => c <> broken) conns
    /\ S (length (delivered calls)) = length conns
    /\ live = filter (fun c => c <> broken) conns
    /\ (broken ∉ live)
    /\ (forall c, c ∈ conns -> c <> broken -> c ∈ live)
    /\ (forall send_text' message',
          attempted (broadcast send_text' message' live).1 = live).
Proof.
  intros Hnd Hin Hbroken Hothers.
  assert (filter (fun c => send_text c message = true) conns
          = filter (fun c => c <> broken) conns) as Hfilter.
  { apply filter_agree. intros c Hc. split.
    - intros Hok ->. congruence.
    - by apply Hothers. }
  destruct (broadcast send_text message conns) as [calls live] eqn:Hb.
  pose proof (attempted_broadcast send_text message conns) as Hatt.
  pose proof (delivered_broadcast send_text message conns) as Hdel.
  pose proof (broadcast_spec send_text message conns) as Hspec.
  rewrite Hb in *. simpl in *. injection Hspec as _ Hlive.
  rewrite Hfilter in *.
  exists calls, live. repeat split; try done.
  - rewrite Hdel. by apply filter_but_one.
  - rewrite Hlive. intros Hmem. apply list_elem_of_filter in Hmem as [Hne _]. by apply Hne.
  - intros c Hc Hne. rewrite Hlive. by apply list_elem_of_filter.
  - intros send_text' message'. apply attempted_broadcast.
Qed.

(** ** C8: connect and disconnect *)



(** ** Comparisons *)

Lemma Qltb_lt (x y : Q) : Qltb x y = true <-> (x < y)%Q.
Proof.
  unfold Qltb. rewrite negb_true_iff. split.
  - intros Hb. apply Qnot_le_lt. intros Hle.
    apply Qle_bool_iff in Hle. congruence.
  - intros Hlt. destruct (Qle_bool y x) eqn:Hb; [|done].
    apply Qle_bool_iff in Hb. exfalso. by apply (Qlt_not_le x y).
Qed.

Lemma Qltb_dec (x y : Q) :
  Qltb x y = if Qlt_le_dec x y then true else false.
Proof.
  destruct (Qlt_le_dec x y) as [Hlt|Hle].
  - by apply Qltb_lt.
  - destruct (Qltb x y) eqn:Hb; [|done].
    apply Qltb_lt in Hb. exfalso. by apply (Qlt_not_le x y).
Qed.

(** ** The three checks on numbers *)

Section Checks.

Variable str_num : Q -> string.

Lemma check_temperature_numbers telemetry_data thresholds cfg temperature max min :
  telemetry_data !! "temperature" = Some (PNum temperature) ->
  thresholds !! "temperature" = Some cfg ->
  cfg !! "max" = Some (PNum max) ->
  cfg !! "min" = Some (PNum min) ->
  exists found,
    check_temperature str_num telemetry_data thresholds = Ok found
    /\ tags found = temperature_rule temperature max min.
Proof.
  intros Ht Hcfg Hmax Hmin.
  unfold check_temperature, temperature_rule, getitem.
  rewrite Ht, Hcfg, Hmax. simpl. rewrite Qltb_dec.
  destruct (Qlt_le_dec max temperature); [by eexists|].
  rewrite Hmin. simpl. rewrite Qltb_dec.
  destruct (Qlt_le_dec temperature min); by eexists.
Qed.

Lemma check_battery_numbers telemetry_data thresholds cfg battery min :
  telemetry_data !! "battery" = Some (PNum battery) ->
  thresholds !! "battery" = Some cfg ->
  cfg !! "min" = Some (PNum min) ->
  exists found,
    check_battery str_num telemetry_data thresholds = Ok found
    /\ tags found = battery_rule battery min.
Proof.
  intros Hb Hcfg Hmin.
  unfold check_battery, battery_rule, getitem.
  rewrite Hb, Hcfg, Hmin. simpl. rewrite Qltb_dec.
  destruct (Qlt_le_dec battery min); [|by eexists].
  simpl. rewrite Qltb_dec.
  destruct (Qlt_le_dec battery 10); by eexists.
Qed.

Lemma check_signal_strength_numbers telemetry_data thresholds cfg signal min :
  telemetry_data !! "signal_strength" = Some (PNum signal) ->
  thresholds !! "signal_strength" = Some cfg ->
  cfg !! "min" = Some (PNum min) ->
  exists found,
    check_signal_strength str_num telemetry_data thresholds = Ok found
    /\ tags found = signal_rule signal min.
Proof.
  intros Hs Hcfg Hmin.
  unfold check_signal_strength, signal_rule, getitem.
  rewrite Hs, Hcfg, Hmin. simpl. rewrite Qltb_dec.
  destruct (Qlt_le_dec signal min); by eexists.
Qed.




End Checks.

(** ** C3: the rule table *)

Lemma temperature_rule_high (temperature max min : Q) :
  (max < temperature)%Q ->
  temperature_rule temperature max min = [("HIGH_TEMPERATURE", "high")].
Proof.
  intros Hhigh. unfold temperature_rule.
  destruct (Qlt_le_dec max temperature) as [_|Hle]; [done|].
  exfalso. by apply (Qlt_not_le max temperature).
Qed.

Lemma temperature_rule_low (temperature max min : Q) :
  (temperature <= max)%Q -> (temperature < min)%Q ->
  temperature_rule temperature max min = [("LOW_TEMPERATURE", "medium")].
Proof.
  intros Hnot Hlow. unfold temperature_rule.
  destruct (Qlt_le_dec max temperature) as [Hlt|_].
  { exfalso. by apply (Qlt_not_le max temperature). }
  destruct (Qlt_le_dec temperature min) as [_|Hle]; [done|].
  exfalso. by apply (Qlt_not_le temperature min).
Qed.

Lemma battery_rule_low (battery min : Q) :
  (battery < min)%Q ->
  battery_rule battery min
    = [("LOW_BATTERY", if Qlt_le_dec battery 10 then "high" else "medium")].
Proof.
  intros Hlow. unfold battery_rule.
  destruct (Qlt_le_dec battery min) as [_|Hle]; [done|].
  exfalso. by apply (Qlt_not_le battery min).
Qed.

Lemma signal_rule_weak (signal_strength min : Q) :
  (signal_strength < min)%Q ->
  signal_rule signal_strength min = [("WEAK_SIGNAL", "medium")].
Proof.
  intros Hlow. unfold signal_rule.
  destruct (Qlt_le_dec signal_strength min) as [_|Hle]; [done|].
  exfalso. by apply (Qlt_not_le signal_strength min).
Qed.




(** ** C10: which rules can fire together *)

Ltac split_check :=
  repeat (simpl in *; try discriminate;
          match goal with
          | H : context [match ?x with _ => _ end] |- _ => destruct x eqn:?
          end).

Lemma check_temperature_types str_num telemetry_data thresholds found :
  check_temperature str_num telemetry_data thresholds = Ok found ->
  c_type <$> found = []
  \/ c_type <$> found = ["HIGH_TEMPERATURE"]
  \/ c_type <$> found = ["LOW_TEMPERATURE"].
Proof.
  unfold check_temperature, getitem, mbind, result_bind. intros Hcheck.
  split_check; injection Hcheck as <-; auto.
Qed.

Lemma check_battery_types str_num telemetry_data thresholds found :
  check_battery str_num telemetry_data thresholds = Ok found ->
  c_type <$> found = [] \/ c_type <$> found = ["LOW_BATTERY"].
Proof.
  unfold check_battery, getitem, mbind, result_bind. intros Hcheck.
  split_check; injection Hcheck as <-; auto.
Qed.

Lemma check_signal_strength_types str_num telemetry_data thresholds found :
  check_signal_strength str_num telemetry_data thresholds = Ok found ->
  c_type <$> found = [] \/ c_type <$> found = ["WEAK_SIGNAL"].
Proof.
  unfold check_signal_strength, getitem, mbind, result_bind. intros Hcheck.
  split_check; injection Hcheck as <-; auto.
Qed.

(** C10, as the claim states it, fails: with [max = 20] below [min = 30], the
    temperature 25 is above [max] and below [min], and HIGH_TEMPERATURE is
    the only candidate. *)
Lemma both_temperature_conditions_one_candidate :
  (20 < 25)%Q /\ (25 < 30)%Q
  /\ exists found,
       anomalies_detected plain_num {[ "temperature" := PNum 25 ]}
         {[ "temperature" := {[ "min" := PNum 30; "max" := PNum 20 ]} ]}
         = Ok found
       /\ c_type <$> found = ["HIGH_TEMPERATURE"]
       /\ "LOW_TEMPERATURE" ∉ c_type <$> found.
Proof.
  split; [reflexivity|]. split; [reflexivity|].
  eexists. split; [vm_compute; reflexivity|]. split; [reflexivity|].
  simpl. intros Hin. apply list_elem_of_singleton in Hin. discriminate.
Qed.

(** C10, amended.  Rules of different metrics fire from one sample: with
    numeric metrics and bounds, temperature > max, battery < min and
    signal_strength < min together give the three candidates
    HIGH_TEMPERATURE, LOW_BATTERY, WEAK_SIGNAL.  The two temperature rules
    are the branches of one if/elif: no evaluation yields both
    HIGH_TEMPERATURE and LOW_TEMPERATURE, and when temperature > max the
    temperature candidate is HIGH_TEMPERATURE alone, whether or not
    temperature < min holds as well. *)
Theorem metrics_independent_temperature_exclusive (str_num : Q -> string) :
  (forall telemetry_data thresholds tcfg bcfg scfg
          temperature battery signal tmax tmin bmin smin,
     telemetry_data !! "temperature" = Some (PNum temperature) ->
     telemetry_data !! "battery" = Some (PNum battery) ->
     telemetry_data !! "signal_strength" = Some (PNum signal) ->
     thresholds !! "temperature" = Some tcfg ->
     tcfg !! "max" = Some (PNum tmax) ->
     tcfg !! "min" = Some (PNum tmin) ->
     thresholds !! "battery" = Some bcfg ->
     bcfg !! "min" = Some (PNum bmin) ->
     thresholds !! "signal_strength" = Some scfg ->
     scfg !! "min" = Some (PNum smin) ->
     (tmax < temperature)%Q -> (battery < bmin)%Q -> (signal < smin)%Q ->
     exists found,
       anomalies_detected str_num telemetry_data thresholds = Ok found
       /\ c_type <$> found = ["HIGH_TEMPERATURE"; "LOW_BATTERY"; "WEAK_SIGNAL"])
  /\ (forall telemetry_data thresholds found,
        anomalies_detected str_num telemetry_data thresholds = Ok found ->
        ~ ("HIGH_TEMPERATURE" ∈ c_type <$> found
           /\ "LOW_TEMPERATURE" ∈ c_type <$> found))
  /\ (forall telemetry_data thresholds tcfg temperature tmax tmin,
        telemetry_data !! "temperature" = Some (PNum temperature) ->
        thresholds !! "temperature" = Some tcfg ->
        tcfg !! "max" = Some (PNum tmax) ->
        tcfg !! "min" = Some (PNum tmin) ->
        (tmax < temperature)%Q ->
        exists found,
          check_temperature str_num telemetry_data thresholds = Ok found
          /\ tags found = [("HIGH_TEMPERATURE", "high")]).
Proof.
  split; [|split].
  - intros td th tcfg bcfg scfg temperature battery signal tmax tmin bmin smin
      Ht Hb Hs Htc Htmax Htmin Hbc Hbmin Hsc Hsmin Hhigh Hlow Hweak.
    destruct (check_temperature_numbers str_num td th tcfg temperature tmax tmin)
      as (t & Hct & Htt); try done.
    destruct (check_battery_numbers str_num td th bcfg battery bmin)
      as (b & Hcb & Htb); try done.
    destruct (check_signal_strength_numbers str_num td th scfg signal smin)
      as (g & Hcg & Htg); try done.
    exists (t ++ b ++ g). unfold anomalies_detected.
    rewrite Hct, Hcb, Hcg. split; [done|].
    rewrite temperature_rule_high in Htt by done.
    rewrite battery_rule_low in Htb by done.
    rewrite signal_rule_weak in Htg by done.
    assert (forall l, c_type <$> l = (tags l).*1) as Hfst.
    { intros l. unfold tags. rewrite <- list_fmap_compose.
      by apply list_fmap_ext. }
    rewrite !fmap_app, !Hfst, Htt, Htb, Htg. reflexivity.
  - intros td th found Hfound. unfold anomalies_detected in Hfound.
    destruct (check_temperature str_num td th) as [t|] eqn:Ht; [|done].
    destruct (check_battery str_num td th) as [b|] eqn:Hb; [|done].
    destruct (check_signal_strength str_num td th) as [g|] eqn:Hg; [|done].
    simpl in Hfound. injection Hfound as <-.
    apply check_temperature_types in Ht.
    apply check_battery_types in Hb.
    apply check_signal_strength_types in Hg.
    rewrite !fmap_app.
    destruct Ht as [-> | [-> | ->]], Hb as [-> | ->], Hg as [-> | ->];
      intros [Hhi Hlo]; apply list_elem_of_In in Hhi, Hlo; simpl in *;
      intuition discriminate.
  - intros td th tcfg temperature tmax tmin Ht Htc Htmax Htmin Hhigh.
    destruct (check_temperature_numbers str_num td th tcfg temperature tmax tmin)
      as (t & Hct & Htt); try done.
    exists t. split; [done|]. by rewrite Htt, temperature_rule_high.
Qed.

Lemma metrics_independent_temperature_exclusive_witness :
  exists found,
    anomalies_detected plain_num
      (dict (sample "dev-1" (Some 90%Q) (Some 5%Q) (Some (-90)%Q)))
      simulator_thresholds = Ok found
    /\ c_type <$> found = ["HIGH_TEMPERATURE"; "LOW_BATTERY"; "WEAK_SIGNAL"].
Proof.
  apply (proj1 (metrics_independent_temperature_exclusive plain_num)
           (dict (sample "dev-1" (Some 90%Q) (Some 5%Q) (Some (-90)%Q)))
           simulator_thresholds
           {[ "min" := PNum 0; "max" := PNum 85 ]}
           {[ "min" := PNum 20 ]}
           {[ "min" := PNum (-80) ]}
           90%Q 5%Q (-90)%Q 85%Q 0%Q 20%Q (-80)%Q);
    vm_compute; reflexivity.
Defined.

(** ** C7: what the evaluation depends on *)

Lemma anomalies_detected_same_metrics str_num sample1 sample2 thresholds :
  same_metrics sample1 sample2 ->
  anomalies_detected str_num sample1 thresholds
    = anomalies_detected str_num sample2 thresholds.
Proof.
  intros Hsame.
  assert (sample1 !! "temperature" = sample2 !! "temperature") as Ht.
  { apply Hsame. unfold metric_keys. set_solver. }
  assert (sample1 !! "battery" = sample2 !! "battery") as Hb.
  { apply Hsame. unfold metric_keys. set_solver. }
  assert (sample1 !! "signal_strength" = sample2 !! "signal_strength") as Hs.
  { apply Hsame. unfold metric_keys. set_solver. }
  unfold anomalies_detected, check_temperature, check_battery,
    check_signal_strength.
  by rewrite Ht, Hb, Hs.
Qed.

Lemma anomalies_save_loop isoformat send_text did db_now found s :
  as_candidate <$> anomalies (foldl (save_anomaly isoformat send_text did db_now) s found)
    = (as_candidate <$> anomalies s) ++ found.
Proof.
  revert s. induction found as [|c found IH]; intros s; simpl.
  - by rewrite app_nil_r.
  - rewrite IH. unfold save_anomaly, broadcast_anomaly.
    rewrite anomalies_manager_broadcast. simpl.
    rewrite fmap_app, <- app_assoc. simpl. by destruct c.
Qed.

Lemma stdout_manager_broadcast send_text message s :
  stdout (manager_broadcast send_text message s) = stdout s.
Proof. unfold manager_broadcast. by destruct (broadcast _ _ _). Qed.

Lemma stdout_save_loop isoformat send_text did db_now found s :
  stdout (foldl (save_anomaly isoformat send_text did db_now) s found) = stdout s.
Proof.
  revert s. induction found as [|c found IH]; intros s; simpl; [done|].
  rewrite IH. unfold save_anomaly, broadcast_anomaly.
  by rewrite stdout_manager_broadcast.
Qed.

Lemma check_anomaly_observed str_num isoformat send_text
    telemetry_data did device db_now s :
  telemetry_data !! "device_id" = Some (PStr did) ->
  first (has_device_id did) (devices s) = Some device ->
  let s' := check_anomaly str_num isoformat send_text telemetry_data db_now s in
  (recorded s s', printed s s')
    = evaluation str_num telemetry_data (threshold_config device).
Proof.
  intros Hid Hdev. unfold check_anomaly, check_anomaly_try, getitem, evaluation.
  rewrite Hid. simpl. rewrite Hdev. unfold recorded, printed.
  destruct (threshold_config device) as [thresholds|];
    [|by rewrite !drop_all].
  destruct (size thresholds); [by rewrite !drop_all|].
  destruct (anomalies_detected str_num telemetry_data thresholds) as [found|e];
    simpl.
  - rewrite fmap_drop, anomalies_save_loop, stdout_save_loop, drop_all.
    by rewrite drop_app_length' by (by rewrite length_fmap).
  - by rewrite drop_all, drop_app_length.
Qed.

(** C7.  The candidates depend on nothing but the three metrics of the
    sample and the threshold configuration: two samples that agree on
    temperature, battery and signal_strength evaluate alike under every
    configuration, and two runs of [check_anomaly] on such samples for
    devices with the same configuration record the same candidates (types,
    reasons, severities, order) and print the same, whatever differs between
    the two states, clocks, subscribers and device ids. *)
Theorem check_anomaly_deterministic
    (str_num : Q -> string) (isoformat : Z -> string)
    (send_text1 send_text2 : WebSocket -> Message -> bool)
    (sample1 sample2 : gmap string pyval) (did1 did2 : string)
    (device1 device2 : Device) (now1 now2 : Z) (s1 s2 : State) :
  sample1 !! "device_id" = Some (PStr did1) ->
  sample2 !! "device_id" = Some (PStr did2) ->
  first (has_device_id did1) (devices s1) = Some device1 ->
  first (has_device_id did2) (devices s2) = Some device2 ->
  threshold_config device1 = threshold_config device2 ->
  same_metrics sample1 sample2 ->
  (forall thresholds,
     anomalies_detected str_num sample1 thresholds
       = anomalies_detected str_num sample2 thresholds)
  /\ recorded s1 (check_anomaly str_num isoformat send_text1 sample1 now1 s1)
       = recorded s2 (check_anomaly str_num isoformat send_text2 sample2 now2 s2)
  /\ printed s1 (check_anomaly str_num isoformat send_text1 sample1 now1 s1)
       = printed s2 (check_anomaly str_num isoformat send_text2 sample2 now2 s2).
Proof.
  intros Hid1 Hid2 Hdev1 Hdev2 Hcfg Hsame.
  split; [intros; by apply anomalies_detected_same_metrics|].
  pose proof (check_anomaly_observed str_num isoformat send_text1
                sample1 did1 device1 now1 s1 Hid1 Hdev1) as H1.
  pose proof (check_anomaly_observed str_num isoformat send_text2
                sample2 did2 device2 now2 s2 Hid2 Hdev2) as H2.
  simpl in H1, H2.
  assert (evaluation str_num sample1 (threshold_config device1)
          = evaluation str_num sample2 (threshold_config device2)) as Heq.
  { rewrite Hcfg. unfold evaluation.
    destruct (threshold_config device2) as [thresholds|]; [|done].
    by rewrite (anomalies_detected_same_metrics _ _ _ thresholds Hsame). }
  rewrite Heq, <- H2 in H1. by injection H1.
Qed.

(** ** C2: a missing bound or an unreported metric *)

(** C2 does not hold of the code.  Under thresholds
    [{temperature: {max: 85}, battery: {min: 20}}] a sample with temperature
    80 and battery 5 raises [KeyError] on the unconfigured temperature [min];
    the battery rule, which gives LOW_BATTERY/high once that bound is
    present, is not reached.  And in the service, a submission that reports
    temperature 90 and no battery, for a device with the simulator's
    thresholds, puts [None] under ["battery"]; the background evaluation
    raises [TypeError] on it, records nothing and prints the error. *)
Theorem check_anomaly_aborts_on_missing_bound
    (str_num : Q -> string) (isoformat : Z -> string)
    (send_text : WebSocket -> Message -> bool) :
  anomalies_detected str_num
    {[ "device_id" := PStr "dev-1"; "temperature" := PNum 80;
       "battery" := PNum 5 ]}
    {[ "temperature" := {[ "max" := PNum 85 ]};
       "battery" := {[ "min" := PNum 20 ]} ]}
    = Raise (KeyError "min")
  /\ tags <$> anomalies_detected str_num
       {[ "device_id" := PStr "dev-1"; "temperature" := PNum 80;
          "battery" := PNum 5 ]}
       {[ "temperature" := {[ "min" := PNum 0; "max" := PNum 85 ]};
          "battery" := {[ "min" := PNum 20 ]} ]}
     = Ok [("LOW_BATTERY", "high")]
  /\ anomalies_detected str_num
       (dict (sample "dev-1" (Some 90%Q) None None)) simulator_thresholds
     = Raise TypeError
  /\ let s0 := state_with
                 [device_row 1 "dev-1" OFFLINE (Some simulator_thresholds)] [] in
     let s' := run str_num isoformat send_text s0
                 [Submit (sample "dev-1" (Some 90%Q) None None) 100 100;
                  Background 101] in
     anomalies s' = [] /\ stdout s' = [TypeError].
Proof.
  split; [vm_compute; reflexivity|].
  split; [vm_compute; reflexivity|].
  split; [vm_compute; reflexivity|].
  split; vm_compute; reflexivity.
Qed.

(** ** The theorems at concrete inputs *)

Lemma submit_unknown_device_no_effect_witness :
  submit_telemetry (fun _ _ => true) (sample "ghost" (Some 90%Q) None None)
    100 100 (state_with [device_row 1 "dev-1" OFFLINE None] [3%nat])
  = (Raise (HTTPException 404 "Device not found"),
     state_with [device_row 1 "dev-1" OFFLINE None] [3%nat]).
Proof.
  apply submit_unknown_device_no_effect.
  apply (bool_decide_unpack _). vm_compute. exact I.
Defined.

Lemma resolve_anomaly_idempotent_witness :
  resolve_anomaly 9
    (set_anomalies [anomaly_row 1 "dev-1" "false"] (state_with [] []))
  = (Raise (HTTPException 404 "Anomaly not found"),
     set_anomalies [anomaly_row 1 "dev-1" "false"] (state_with [] []))
  /\ exists msg s1 a1,
       resolve_anomaly 1
         (set_anomalies [anomaly_row 1 "dev-1" "false"] (state_with [] []))
       = (Ok msg, s1)
       /\ first (has_anomaly_id 1) (anomalies s1) = Some a1
       /\ resolved a1 = "true"
       /\ a_id <$> anomalies s1 = [1]
       /\ resolve_anomaly 1 s1 = (Ok msg, s1).
Proof.
  split.
  - apply (proj1 (resolve_anomaly_idempotent 9
       (set_anomalies [anomaly_row 1 "dev-1" "false"] (state_with [] [])))).
    apply (bool_decide_unpack _). vm_compute. exact I.
  - apply (proj2 (resolve_anomaly_idempotent 1
       (set_anomalies [anomaly_row 1 "dev-1" "false"] (state_with [] [])))).
    apply (bool_decide_unpack _). vm_compute. exact I.
Defined.

Lemma check_anomaly_no_threshold_config_witness :
  check_anomaly plain_num plain_time (fun _ _ => true)
    (dict (sample "dev-1" (Some 200%Q) (Some 1%Q) (Some (-120)%Q))) 5
    (state_with [device_row 1 "dev-1" ONLINE (Some ∅)] [3%nat])
  = state_with [device_row 1 "dev-1" ONLINE (Some ∅)] [3%nat].
Proof.
  apply (check_anomaly_no_threshold_config plain_num plain_time (fun _ _ => true)
           _ "dev-1" (device_row 1 "dev-1" ONLINE (Some ∅))).
  - vm_compute. reflexivity.
  - vm_compute. reflexivity.
  - right. reflexivity.
Defined.

Lemma submit_sets_online_and_last_seen_witness :
  exists row1 s1 row2 s2,
    submit_telemetry (fun _ _ => true) (sample "dev-1" (Some 20%Q) None None)
      100 100
      (state_with [device_row 1 "dev-1" ERROR None;
                   device_row 2 "dev-2" OFFLINE None] [3%nat])
    = (Ok row1, s1)
    /\ status_of "dev-1" s1 = Some ONLINE
    /\ last_seen_of "dev-1" s1 = Some 100
    /\ last_seen_of "dev-1"
         (run plain_num plain_time (fun _ _ => true) s1
            [Background 101;
             Submit (sample "dev-2" None (Some 50%Q) None) 130 130;
             Resolve 1]) = Some 100
    /\ submit_telemetry (fun _ _ => true) (sample "dev-1" (Some 21%Q) None None)
         160 160
         (run plain_num plain_time (fun _ _ => true) s1
            [Background 101;
             Submit (sample "dev-2" None (Some 50%Q) None) 130 130;
             Resolve 1]) = (Ok row2, s2)
    /\ status_of "dev-1" s2 = Some ONLINE
    /\ last_seen_of "dev-1" s2 = Some 160
    /\ (forall v1 v2, last_seen_of "dev-1" s1 = Some v1 ->
                      last_seen_of "dev-1" s2 = Some v2 -> v1 <= v2).
Proof.
  apply (submit_sets_online_and_last_seen plain_num plain_time (fun _ _ => true)
           (sample "dev-1" (Some 20%Q) None None)
           (sample "dev-1" (Some 21%Q) None None) 100 160 100 160).
  - apply (bool_decide_unpack _). vm_compute. exact I.
  - reflexivity.
  - repeat constructor; simpl; [tauto | discriminate | tauto].
  - lia.
Defined.

Lemma broadcast_isolates_failure_witness :
  exists calls live,
    broadcast (fun c _ => negb (c =? 2)%nat)
      {| m_type := "telemetry"; m_data := ∅ |} [1%nat; 2%nat; 3%nat]
    = (calls, live)
    /\ attempted calls = [1%nat; 2%nat; 3%nat]
    /\ delivered calls = filter (fun c => c <> 2%nat) [1%nat; 2%nat; 3%nat]
    /\ S (length (delivered calls)) = length [1%nat; 2%nat; 3%nat]
    /\ live = filter (fun c => c <> 2%nat) [1%nat; 2%nat; 3%nat]
    /\ (2%nat ∉ live)
    /\ (forall c, c ∈ [1%nat; 2%nat; 3%nat] -> c <> 2%nat -> c ∈ live)
    /\ (forall send_text' message',
          attempted (broadcast send_text' message' live).1 = live).
Proof.
  apply broadcast_isolates_failure.
  - apply (bool_decide_unpack _). vm_compute. exact I.
  - apply (bool_decide_unpack _). vm_compute. exact I.
  - reflexivity.
  - intros c _ Hne. simpl. apply negb_true_iff, Nat.eqb_neq. exact Hne.
Defined.


Lemma check_anomaly_deterministic_witness :
  recorded
    (state_with [device_row 1 "dev-1" ONLINE (Some simulator_thresholds)] [])
    (check_anomaly plain_num plain_time (fun _ _ => true)
       (dict (sample "dev-1" (Some 90%Q) (Some 5%Q) (Some (-60)%Q))) 7
       (state_with [device_row 1 "dev-1" ONLINE (Some simulator_thresholds)] []))
  = recorded
      (set_anomalies [anomaly_row 4 "dev-2" "true"]
         (state_with [device_row 1 "dev-1" OFFLINE None;
                      device_row 2 "dev-2" WARNING (Some simulator_thresholds)]
                     [3%nat; 4%nat]))
      (check_anomaly plain_num plain_time (fun _ _ => false)
         (dict {| tc_device_id := "dev-2"; tc_temperature := Some 90%Q;
                  tc_battery := Some 5%Q; tc_signal_strength := Some (-60)%Q;
                  tc_cpu_usage := Some 55%Q; tc_memory_usage := None;
                  tc_disk_usage := None |}) 900
         (set_anomalies [anomaly_row 4 "dev-2" "true"]
            (state_with [device_row 1 "dev-1" OFFLINE None;
                         device_row 2 "dev-2" WARNING (Some simulator_thresholds)]
                        [3%nat; 4%nat]))).
Proof.
  apply (check_anomaly_deterministic plain_num plain_time
           (fun _ _ => true) (fun _ _ => false) _ _ "dev-1" "dev-2"
           (device_row 1 "dev-1" ONLINE (Some simulator_thresholds))
           (device_row 2 "dev-2" WARNING (Some simulator_thresholds))).
  - vm_compute. reflexivity.
  - vm_compute. reflexivity.
  - vm_compute. reflexivity.
  - vm_compute. reflexivity.
  - reflexivity.
  - intros k Hk. unfold metric_keys in Hk.
    repeat (apply elem_of_cons in Hk as [->|Hk]; [vm_compute; reflexivity|]).
    by apply elem_of_nil in Hk.
Defined.

(** * The code around the claims *)

(** ** Sorting and paging *)

#[local] Instance telemetry_desc_trans : Transitive telemetry_desc.
Proof. unfold telemetry_desc. intros a b c. lia. Qed.

#[local] Instance telemetry_desc_total : Total telemetry_desc.
Proof. unfold telemetry_desc. intros a b. lia. Qed.

#[local] Instance anomaly_desc_trans : Transitive anomaly_desc.
Proof. unfold anomaly_desc. intros a b c. lia. Qed.

#[local] Instance anomaly_desc_total : Total anomaly_desc.
Proof. unfold anomaly_desc. intros a b. lia. Qed.

Lemma StronglySorted_sublist {A} (R : relation A) (l1 l2 : list A) :
  l1 `sublist_of` l2 -> StronglySorted R l2 -> StronglySorted R l1.
Proof.
  induction 1 as [|x l1 l2 Hsub IH|x l1 l2 Hsub IH]; intros Hsorted.
  - constructor.
  - apply StronglySorted_inv in Hsorted as [Htail Hhead].
    constructor; [by apply IH|].
    apply Forall_forall. intros y Hy. rewrite Forall_forall in Hhead.
    apply Hhead. by eapply elem_of_sublist.
  - apply StronglySorted_inv in Hsorted as [Htail _]. by apply IH.
Qed.

Lemma page_sublist {A} (skip limit : nat) (rows : list A) :
  page skip limit rows `sublist_of` rows.
Proof.
  unfold page. etransitivity; [apply sublist_take | apply sublist_drop].
Qed.

Lemma page_length {A} (skip limit : nat) (rows : list A) :
  (length (page skip limit rows) <= limit)%nat.
Proof. unfold page. rewrite length_take. lia. Qed.



(** ** [get_telemetry] *)

(** The rows [get_telemetry] selects before sorting and paging. *)
Lemma get_telemetry_unfold device_id hours skip limit utcnow s :
  get_telemetry device_id hours skip limit utcnow s
    = page skip limit (newest_telemetry_first
        (filter (fun t => utcnow - timedelta_hours hours <= t_timestamp t
                          /\ passes_device_filter device_id (t_device_id t))
                (telemetry s))).
Proof.
  unfold get_telemetry. do 2 f_equal.
  destruct device_id as [did|]; simpl.
  - case_bool_decide as Hempty.
    + apply list_filter_iff. intros t. tauto.
    + rewrite list_filter_filter. apply list_filter_iff. intros t. tauto.
  - apply list_filter_iff. intros t. tauto.
Qed.

(** X1.  Every row [get_telemetry] returns is a stored row, lies inside the
    time window, and belongs to the requested device when a non-empty
    [device_id] was given; the rows come newest first and there are at most
    [limit] of them. *)
Theorem get_telemetry_sound
    (device_id : option string) (hours : Z) (skip limit : nat) (utcnow : Z)
    (s : State) :
  Forall (fun r => r ∈ telemetry s
                   /\ utcnow - timedelta_hours hours <= t_timestamp r
                   /\ (forall did, device_id = Some did -> did <> "" ->
                                   t_device_id r = did))
         (get_telemetry device_id hours skip limit utcnow s)
  /\ StronglySorted telemetry_desc (get_telemetry device_id hours skip limit utcnow s)
  /\ (length (get_telemetry device_id hours skip limit utcnow s) <= limit)%nat.
Proof.
  rewrite get_telemetry_unfold. split; [|split].
  - apply Forall_forall. intros r Hr.
    pose proof (elem_of_sublist _ _ _ Hr (page_sublist _ _ _)) as Hsorted.
    unfold newest_telemetry_first in Hsorted.
    rewrite merge_sort_Permutation in Hsorted.
    apply list_elem_of_filter in Hsorted as [[Hwin Hdev] Hin].
    split; [done|]. split; [done|].
    intros did -> Hne. simpl in Hdev. by destruct Hdev.
  - eapply StronglySorted_sublist; [apply page_sublist|].
    apply StronglySorted_merge_sort; apply _.
  - apply page_length.
Qed.


(** ** [get_latest_telemetry] *)

Lemma newest_telemetry_first_head rows row rest :
  newest_telemetry_first rows = row :: rest ->
  row ∈ rows /\ forall r, r ∈ rows -> t_timestamp r <= t_timestamp row.
Proof.
  intros Hsort.
  pose proof (merge_sort_Permutation telemetry_desc rows) as Hperm.
  pose proof (StronglySorted_merge_sort telemetry_desc rows) as Hsorted.
  unfold newest_telemetry_first in Hsort. rewrite Hsort in Hperm, Hsorted.
  split.
  - rewrite <- Hperm. by left.
  - intros r Hr. rewrite <- Hperm in Hr.
    apply StronglySorted_inv in Hsorted as [_ Hhead].
    apply elem_of_cons in Hr as [->|Hr]; [lia|].
    rewrite Forall_forall in Hhead. by apply Hhead.
Qed.

Lemma newest_telemetry_first_nil rows :
  newest_telemetry_first rows = [] -> rows = [].
Proof.
  intros Hsort.
  pose proof (merge_sort_Permutation telemetry_desc rows) as Hperm.
  unfold newest_telemetry_first in Hsort. rewrite Hsort in Hperm.
  by apply Permutation_nil_l in Hperm.
Qed.

(** X3.  [get_latest_telemetry] fails with the 404 "No telemetry data found
    for this device" exactly when no stored row is of that device, whether
    or not the device is registered; otherwise it returns a stored row of
    the device that no other row of the device is newer than. *)
Theorem get_latest_telemetry_newest (did : string) (s : State) :
  match get_latest_telemetry did s with
  | Raise e =>
      e = HTTPException 404 "No telemetry data found for this device"
      /\ forall r, r ∈ telemetry s -> t_device_id r <> did
  | Ok row =>
      row ∈ telemetry s
      /\ t_device_id row = did
      /\ forall r, r ∈ telemetry s -> t_device_id r = did ->
                   t_timestamp r <= t_timestamp row
  end.
Proof.
  unfold get_latest_telemetry.
  destruct (newest_telemetry_first _) as [|row rest] eqn:Hsort.
  - split; [done|]. intros r Hr Hdev.
    apply newest_telemetry_first_nil in Hsort.
    assert (r ∈ filter (fun t => t_device_id t = did) (telemetry s)) as Hin
      by by apply list_elem_of_filter.
    rewrite Hsort in Hin. by apply elem_of_nil in Hin.
  - apply newest_telemetry_first_head in Hsort as [Hin Hmax].
    apply list_elem_of_filter in Hin as [Hdev Hin].
    repeat split; try done.
    intros r Hr Hrdev. apply Hmax. by apply list_elem_of_filter.
Qed.

Lemma telemetry_manager_broadcast send_text message s :
  telemetry (manager_broadcast send_text message s) = telemetry s.
Proof. unfold manager_broadcast. by destruct (broadcast _ _ _). Qed.

Lemma background_tasks_manager_broadcast send_text message s :
  background_tasks (manager_broadcast send_text message s) = background_tasks s.
Proof. unfold manager_broadcast. by destruct (broadcast _ _ _). Qed.

Lemma submit_telemetry_known send_text telemetry_data utcnow db_now s :
  tc_device_id telemetry_data ∈ device_id <$> devices s ->
  exists s',
    submit_telemetry send_text telemetry_data utcnow db_now s
      = (Ok (new_telemetry telemetry_data db_now (telemetry s)), s')
    /\ telemetry s'
         = telemetry s ++ [new_telemetry telemetry_data db_now (telemetry s)]
    /\ anomalies s' = anomalies s
    /\ background_tasks s' = background_tasks s ++ [dict telemetry_data]
    /\ stdout s' = stdout s.
Proof.
  intros Hknown. destruct (first_device_known _ _ Hknown) as (d & Hfirst & _).
  unfold submit_telemetry. rewrite Hfirst. eexists. split; [reflexivity|].
  unfold broadcast_telemetry. simpl.
  rewrite telemetry_manager_broadcast, anomalies_manager_broadcast,
    background_tasks_manager_broadcast, stdout_manager_broadcast.
  done.
Qed.

(** X4.  Submit, then read back: when the database clock of a submission for
    a registered device is later than the timestamp of every stored row of
    that device, [get_latest_telemetry] afterwards returns the very row the
    submission returned, and that row carries the submitted device id and
    metrics. *)
Theorem submit_then_get_latest
    (send_text : WebSocket -> Message -> bool)
    (telemetry_data : TelemetryCreate) (utcnow db_now : Z) (s : State) :
  tc_device_id telemetry_data ∈ device_id <$> devices s ->
  (forall r, r ∈ telemetry s -> t_device_id r = tc_device_id telemetry_data ->
             t_timestamp r < db_now) ->
  exists row s',
    submit_telemetry send_text telemetry_data utcnow db_now s = (Ok row, s')
    /\ get_latest_telemetry (tc_device_id telemetry_data) s' = Ok row
    /\ t_timestamp row = db_now
    /\ t_device_id row = tc_device_id telemetry_data
    /\ (t_temperature row, t_battery row, t_signal_strength row)
         = (tc_temperature telemetry_data, tc_battery telemetry_data,
            tc_signal_strength telemetry_data)
    /\ (t_cpu_usage row, t_memory_usage row, t_disk_usage row)
         = (tc_cpu_usage telemetry_data, tc_memory_usage telemetry_data,
            tc_disk_usage telemetry_data).
Proof.
  intros Hknown Hnewer.
  destruct (submit_telemetry_known send_text telemetry_data utcnow db_now s Hknown)
    as (s' & Hsub & Htel & _).
  exists (new_telemetry telemetry_data db_now (telemetry s)), s'.
  split; [done|]. split; [|done].
  assert (new_telemetry telemetry_data db_now (telemetry s)
          ∈ filter (fun t => t_device_id t = tc_device_id telemetry_data)
                   (telemetry s')) as Hstored.
  { apply list_elem_of_filter. split; [done|].
    rewrite Htel. apply elem_of_app. right. by left. }
  unfold get_latest_telemetry.
  destruct (newest_telemetry_first _) as [|row rest] eqn:Hsort.
  - exfalso. apply newest_telemetry_first_nil in Hsort.
    rewrite Hsort in Hstored. by apply elem_of_nil in Hstored.
  - apply newest_telemetry_first_head in Hsort as [Hin Hmax]. f_equal.
    specialize (Hmax _ Hstored). simpl in Hmax.
    apply list_elem_of_filter in Hin as [Hdev Hin].
    rewrite Htel in Hin. apply elem_of_app in Hin as [Hold|Hnew].
    + exfalso. specialize (Hnewer row Hold Hdev). lia.
    + by apply list_elem_of_singleton in Hnew.
Qed.

(** ** What a run keeps *)

Lemma submit_unknown_device_state send_text telemetry_data utcnow db_now s :
  tc_device_id telemetry_data ∉ device_id <$> devices s ->
  (submit_telemetry send_text telemetry_data utcnow db_now s).2 = s.
Proof.
  intros Hnot. unfold submit_telemetry.
  by rewrite (first_device_unknown _ _ Hnot).
Qed.

Lemma next_id_above (ids : list Z) (x : Z) : x ∈ ids -> x < next_id ids.
Proof.
  unfold next_id. induction ids as [|y ids IH]; intros Hin.
  - by apply elem_of_nil in Hin.
  - simpl. apply elem_of_cons in Hin as [->|Hin]; [lia|].
    specialize (IH Hin). lia.
Qed.

Lemma next_id_fresh (ids : list Z) : next_id ids ∉ ids.
Proof. intros Hin. apply next_id_above in Hin. lia. Qed.

Lemma NoDup_snoc_fresh (ids : list Z) : NoDup ids -> NoDup (ids ++ [next_id ids]).
Proof.
  intros Hnd. apply NoDup_app. split; [done|]. split.
  - intros x Hx Hnew. apply list_elem_of_singleton in Hnew. subst.
    by apply next_id_fresh in Hx.
  - apply NoDup_singleton.
Qed.

Lemma telemetry_save_loop isoformat send_text did db_now found s :
  telemetry (foldl (save_anomaly isoformat send_text did db_now) s found)
    = telemetry s.
Proof.
  revert s. induction found as [|c found IH]; intros s; simpl; [done|].
  rewrite IH. unfold save_anomaly, broadcast_anomaly.
  by rewrite telemetry_manager_broadcast.
Qed.

(** The save loop appends one unresolved row of the device per candidate,
    each under a fresh id. *)
Lemma save_loop_rows isoformat send_text did db_now found s :
  exists rows,
    anomalies (foldl (save_anomaly isoformat send_text did db_now) s found)
      = anomalies s ++ rows
    /\ Forall (fun a => a_device_id a = did /\ resolved a = "false") rows
    /\ (NoDup (a_id <$> anomalies s) -> NoDup (a_id <$> (anomalies s ++ rows))).
Proof.
  revert s. induction found as [|c found IH]; intros s; simpl.
  - exists []. rewrite app_nil_r. by repeat split.
  - assert (exists row,
              anomalies (save_anomaly isoformat send_text did db_now s c)
                = anomalies s ++ [row]
              /\ a_id row = next_id (a_id <$> anomalies s)
              /\ a_device_id row = did /\ resolved row = "false")
      as (row & Hstep & Hid & Hdid & Hres).
    { unfold save_anomaly, broadcast_anomaly.
      rewrite anomalies_manager_broadcast. simpl.
      eexists. split; [reflexivity|]. done. }
    destruct (IH (save_anomaly isoformat send_text did db_now s c))
      as (rows & Hrows & Hall & Hnd).
    rewrite Hstep in Hrows, Hnd.
    exists (row :: rows). split; [|split].
    + by rewrite Hrows, <- app_assoc.
    + by constructor.
    + intros Hold. rewrite (cons_middle row (anomalies s) rows), app_assoc.
      apply Hnd. rewrite fmap_app. simpl. rewrite Hid.
      by apply NoDup_snoc_fresh.
Qed.

Lemma check_anomaly_rows str_num isoformat send_text telemetry_data db_now s :
  exists rows,
    anomalies (check_anomaly str_num isoformat send_text telemetry_data db_now s)
      = anomalies s ++ rows
    /\ Forall (fun a => a_device_id a ∈ device_id <$> devices s
                        /\ resolved a = "false") rows
    /\ (NoDup (a_id <$> anomalies s) -> NoDup (a_id <$> (anomalies s ++ rows))).
Proof.
  assert (exists rows : list Anomaly,
            anomalies s = anomalies s ++ rows
            /\ Forall (fun a => a_device_id a ∈ device_id <$> devices s
                                /\ resolved a = "false") rows
            /\ (NoDup (a_id <$> anomalies s) ->
                NoDup (a_id <$> (anomalies s ++ rows)))) as Hsame.
  { exists []. rewrite app_nil_r. by repeat split. }
  unfold check_anomaly, check_anomaly_try.
  destruct (getitem telemetry_data "device_id") as [v|e]; simpl; [|done].
  destruct (device_by v (devices s)) as [device|] eqn:Hdev; [|done].
  destruct (threshold_config device) as [thresholds|]; [|done].
  destruct (size thresholds); [done|].
  destruct (anomalies_detected str_num telemetry_data thresholds) as [found|e];
    simpl; [|done].
  destruct (save_loop_rows isoformat send_text (device_id device) db_now found s)
    as (rows & Hrows & Hall & Hnd).
  exists rows. split; [done|]. split; [|done].
  eapply Forall_impl; [exact Hall|]. intros a [-> Hres]. split; [|done].
  apply list_elem_of_fmap. exists device. split; [done|].
  destruct v as [|q|did]; simpl in Hdev; try discriminate.
  by apply first_Some_holds in Hdev as [_ Hin].
Qed.

Lemma telemetry_check_anomaly str_num isoformat send_text telemetry_data db_now s :
  telemetry (check_anomaly str_num isoformat send_text telemetry_data db_now s)
    = telemetry s.
Proof.
  unfold check_anomaly, check_anomaly_try.
  destruct (getitem telemetry_data "device_id") as [v|e]; simpl; [|done].
  destruct (device_by v (devices s)) as [device|]; [|done].
  destruct (threshold_config device) as [thresholds|]; [|done].
  destruct (size thresholds); [done|].
  destruct (anomalies_detected str_num telemetry_data thresholds) as [found|e];
    simpl; [|done].
  apply telemetry_save_loop.
Qed.

(** The three tables after one request, in terms of the tables before. *)
Lemma handle_tables str_num isoformat send_text s r :
  let s' := handle str_num isoformat send_text s r in
  device_id <$> devices s' = device_id <$> devices s
  /\ (telemetry s' = telemetry s
      \/ exists td db_now,
           tc_device_id td ∈ device_id <$> devices s
           /\ telemetry s' = telemetry s ++ [new_telemetry td db_now (telemetry s)])
  /\ ((exists rows,
         anomalies s' = anomalies s ++ rows
         /\ Forall (fun a => a_device_id a ∈ device_id <$> devices s
                             /\ resolved a = "false") rows
         /\ (NoDup (a_id <$> anomalies s) ->
             NoDup (a_id <$> (anomalies s ++ rows))))
      \/ exists aid,
           anomalies s' = update_first (has_anomaly_id aid) mark_resolved (anomalies s)).
Proof.
  assert (exists rows : list Anomaly,
            anomalies s = anomalies s ++ rows
            /\ Forall (fun a => a_device_id a ∈ device_id <$> devices s
                                /\ resolved a = "false") rows
            /\ (NoDup (a_id <$> anomalies s) ->
                NoDup (a_id <$> (anomalies s ++ rows)))) as Hsame.
  { exists []. rewrite app_nil_r. by repeat split. }
  destruct r as [td utcnow db_now|db_now|aid|acc ws|ws]; simpl.
  - rewrite devices_submit_telemetry.
    split; [by apply update_first_keys|].
    destruct (decide (tc_device_id td ∈ device_id <$> devices s)) as [Hknown|Hnot].
    + destruct (submit_telemetry_known send_text td utcnow db_now s Hknown)
        as (s' & -> & Htel & Han & _). simpl. rewrite Han.
      split; [right; by exists td, db_now | by left].
    + rewrite (submit_unknown_device_state send_text td utcnow db_now s Hnot).
      split; [by left | by left].
  - unfold run_background_task.
    destruct (background_tasks s) as [|task rest]; [by repeat split; left|].
    rewrite devices_check_anomaly, telemetry_check_anomaly. simpl.
    split; [done|]. split; [by left|]. left.
    apply (check_anomaly_rows str_num isoformat send_text task db_now
             (set_background_tasks rest s)).
  - unfold resolve_anomaly.
    destruct (first (has_anomaly_id aid) (anomalies s));
      simpl; repeat split; try (by left). right. by exists aid.
  - by repeat split; left.
  - by repeat split; left.
Qed.

Lemma Forall_update_first {A} (P : A -> Prop) (p : A -> bool) (f : A -> A)
    (rows : list A) :
  (forall x, P x -> P (f x)) -> Forall P rows -> Forall P (update_first p f rows).
Proof.
  intros Hf. induction 1 as [|x rows Hx Hrows IH]; simpl; [constructor|].
  destruct (p x); constructor; auto.
Qed.

Lemma handle_keeps_keys_unique str_num isoformat send_text s r :
  keys_unique s -> keys_unique (handle str_num isoformat send_text s r).
Proof.
  intros (Hdev & Htel & Han).
  destruct (handle_tables str_num isoformat send_text s r) as (Hd & Ht & Ha).
  split; [|split].
  - by rewrite Hd.
  - destruct Ht as [-> | (td & db_now & _ & ->)]; [done|].
    rewrite fmap_app. by apply NoDup_snoc_fresh.
  - destruct Ha as [(rows & -> & _ & Hnd) | (aid & ->)]; [by apply Hnd|].
    by rewrite update_first_keys.
Qed.

Lemma handle_keeps_references str_num isoformat send_text s r :
  references_resolve s ->
  references_resolve (handle str_num isoformat send_text s r).
Proof.
  intros (Htel & Han).
  destruct (handle_tables str_num isoformat send_text s r) as (Hd & Ht & Ha).
  unfold references_resolve. rewrite Hd. split.
  - destruct Ht as [-> | (td & db_now & Hknown & ->)]; [done|].
    apply Forall_app. split; [done|]. by repeat constructor.
  - destruct Ha as [(rows & -> & Hrows & _) | (aid & ->)].
    + apply Forall_app. split; [done|].
      eapply Forall_impl; [exact Hrows|]. by intros a [Hin _].
    + by apply Forall_update_first.
Qed.

(** X5.  Unique keys are kept: from a state whose device ids, telemetry ids
    and anomaly ids are each without repetition, every serial run of
    submissions, background evaluations, resolutions, connects and
    disconnects ends in such a state; every row written gets an id no stored
    row has. *)
Theorem run_keeps_keys_unique
    (str_num : Q -> string) (isoformat : Z -> string)
    (send_text : WebSocket -> Message -> bool)
    (requests : list Request) (s : State) :
  keys_unique s -> keys_unique (run str_num isoformat send_text s requests).
Proof.
  unfold run. revert s.
  induction requests as [|r requests IH]; intros s Hs; simpl; [done|].
  by apply IH, handle_keeps_keys_unique.
Qed.

(** X6.  References are kept: from a state in which every telemetry row and
    every anomaly row names a registered device, every serial run ends in
    such a state.  A sample is stored only after its device was found, and an
    anomaly is written under the id of the device row the evaluation read. *)
Theorem run_keeps_references
    (str_num : Q -> string) (isoformat : Z -> string)
    (send_text : WebSocket -> Message -> bool)
    (requests : list Request) (s : State) :
  references_resolve s ->
  references_resolve (run str_num isoformat send_text s requests).
Proof.
  unfold run. revert s.
  induction requests as [|r requests IH]; intros s Hs; simpl; [done|].
  by apply IH, handle_keeps_references.
Qed.

Lemma later_version_refl (rows : list Anomaly) : Forall2 later_version rows rows.
Proof. induction rows; constructor; [by left | done]. Qed.

Lemma later_version_trans (a b c : Anomaly) :
  later_version a b -> later_version b c -> later_version a c.
Proof.
  unfold later_version. intros [-> | ->] [-> | ->]; auto.
Qed.

Lemma later_version_update_first (aid : Z) (rows : list Anomaly) :
  Forall2 later_version rows (update_first (has_anomaly_id aid) mark_resolved rows).
Proof.
  induction rows as [|a rows IH]; simpl; [constructor|].
  destruct (has_anomaly_id aid a).
  - constructor; [by right | apply later_version_refl].
  - constructor; [by left | done].
Qed.

Lemma anomalies_evolve_trans (rows1 rows2 rows3 : list Anomaly) :
  anomalies_evolve rows1 rows2 -> anomalies_evolve rows2 rows3 ->
  anomalies_evolve rows1 rows3.
Proof.
  intros (front1 & more1 & -> & H12) (front2 & more2 & -> & H23).
  apply Forall2_app_inv_l in H23 as (fa & fb & Ha & Hb & ->).
  exists fa, (fb ++ more2). split; [by rewrite app_assoc|].
  clear -H12 Ha. revert fa Ha.
  induction H12 as [|a b rows front Hab _ IH]; intros fa Ha.
  - apply Forall2_nil_inv_l in Ha as ->. constructor.
  - apply Forall2_cons_inv_l in Ha as (c & fa' & Hbc & Hrest & ->).
    constructor; [by eapply later_version_trans | by apply IH].
Qed.

Lemma handle_keeps_history str_num isoformat send_text s r :
  telemetry s `prefix_of` telemetry (handle str_num isoformat send_text s r)
  /\ anomalies_evolve (anomalies s)
       (anomalies (handle str_num isoformat send_text s r)).
Proof.
  destruct (handle_tables str_num isoformat send_text s r) as (_ & Ht & Ha).
  split.
  - destruct Ht as [-> | (td & db_now & _ & ->)]; [done|]. by apply prefix_app_r.
  - destruct Ha as [(rows & -> & _) | (aid & ->)].
    + exists (anomalies s), rows. split; [done | apply later_version_refl].
    + eexists _, []. rewrite app_nil_r. split; [done|].
      apply later_version_update_first.
Qed.

(** X7.  History is kept.  Over every serial run the telemetry table only
    grows at its end: the rows stored before are a prefix of the rows stored
    after, unchanged.  The anomaly table keeps every old row in its place,
    either as it was or with [resolved] set to ["true"] and nothing else
    changed, and new rows come after them; so no anomaly is deleted and a
    resolved anomaly is never reopened. *)
Theorem run_keeps_history
    (str_num : Q -> string) (isoformat : Z -> string)
    (send_text : WebSocket -> Message -> bool)
    (requests : list Request) (s : State) :
  telemetry s `prefix_of` telemetry (run str_num isoformat send_text s requests)
  /\ anomalies_evolve (anomalies s)
       (anomalies (run str_num isoformat send_text s requests))
  /\ (forall i a,
        anomalies s !! i = Some a -> resolved a = "true" ->
        exists a',
          anomalies (run str_num isoformat send_text s requests) !! i = Some a'
          /\ a' = a).
Proof.
  assert (telemetry s `prefix_of`
            telemetry (run str_num isoformat send_text s requests)
          /\ anomalies_evolve (anomalies s)
               (anomalies (run str_num isoformat send_text s requests)))
    as [Htel Han].
  { unfold run. revert s.
    induction requests as [|r requests IH]; intros s; simpl.
    - split; [done|]. exists (anomalies s), []. rewrite app_nil_r.
      split; [done | apply later_version_refl].
    - destruct (handle_keeps_history str_num isoformat send_text s r) as [Ht Ha].
      destruct (IH (handle str_num isoformat send_text s r)) as [Ht' Ha'].
      split; [by etransitivity | by eapply anomalies_evolve_trans]. }
  split; [done|]. split; [done|].
  intros i a Hi Hres. destruct Han as (front & more & -> & Hfront).
  destruct (Forall2_lookup_l _ _ _ _ _ Hfront Hi) as (a' & Hi' & Hlater).
  exists a'. split; [by apply lookup_app_l_Some|].
  destruct Hlater as [-> | ->]; [done|].
  destruct a. simpl in Hres. unfold mark_resolved. simpl. by rewrite Hres.
Qed.

(** ** [get_anomalies] *)

Lemma get_anomalies_unfold device_id resolved_filter hours skip limit utcnow s :
  get_anomalies device_id resolved_filter hours skip limit utcnow s
    = page skip limit (newest_anomaly_first
        (filter (fun a => utcnow - timedelta_hours hours <= a_timestamp a
                          /\ (forall b : bool, resolved_filter = Some b ->
                                resolved a = if b then "true" else "false")
                          /\ passes_device_filter device_id (a_device_id a))
                (anomalies s))).
Proof.
  unfold get_anomalies. do 2 f_equal.
  destruct resolved_filter as [b|], device_id as [did|]; simpl;
    try case_bool_decide; rewrite ?list_filter_filter;
    apply list_filter_iff; intros a; (split;
      [ intros Hfil; repeat split; try tauto; try discriminate;
        intros b' Hb; simplify_eq; tauto
      | intros (Hw & Hres & Hdev); repeat split; try done;
        try (by apply Hres); destruct Hdev; done ]).
Qed.

(** X8.  Every row [get_anomalies] returns is a stored anomaly inside the
    time window, of the requested device when a non-empty [device_id] was
    given, and with [resolved] equal to ["true"] or ["false"] as the
    [resolved] parameter asks; the rows come newest first and there are at
    most [limit] of them. *)
Theorem get_anomalies_sound
    (device_id : option string) (resolved_filter : option bool) (hours : Z)
    (skip limit : nat) (utcnow : Z) (s : State) :
  Forall (fun a => a ∈ anomalies s
                   /\ utcnow - timedelta_hours hours <= a_timestamp a
                   /\ (forall did, device_id = Some did -> did <> "" ->
                                   a_device_id a = did)
                   /\ (resolved_filter = Some true -> resolved a = "true")
                   /\ (resolved_filter = Some false -> resolved a = "false"))
         (get_anomalies device_id resolved_filter hours skip limit utcnow s)
  /\ StronglySorted anomaly_desc
       (get_anomalies device_id resolved_filter hours skip limit utcnow s)
  /\ (length (get_anomalies device_id resolved_filter hours skip limit utcnow s)
      <= limit)%nat.
Proof.
  rewrite get_anomalies_unfold. split; [|split].
  - apply Forall_forall. intros a Ha.
    pose proof (elem_of_sublist _ _ _ Ha (page_sublist _ _ _)) as Hsorted.
    unfold newest_anomaly_first in Hsorted.
    rewrite merge_sort_Permutation in Hsorted.
    apply list_elem_of_filter in Hsorted as [(Hwin & Hres & Hdev) Hin].
    split; [done|]. split; [done|]. split; [|split].
    + intros did -> Hne. simpl in Hdev. by destruct Hdev.
    + intros Hfil. by apply (Hres true).
    + intros Hfil. by apply (Hres false).
  - eapply StronglySorted_sublist; [apply page_sublist|].
    apply StronglySorted_merge_sort; apply _.
  - apply page_length.
Qed.

Lemma resolved_after_update (aid : Z) (rows : list Anomaly) (a : Anomaly) :
  NoDup (a_id <$> rows) ->
  a ∈ update_first (has_anomaly_id aid) mark_resolved rows ->
  a_id a = aid -> resolved a = "true".
Proof.
  induction rows as [|x rows IH]; intros Hnd Hin Hid.
  - by apply elem_of_nil in Hin.
  - rewrite fmap_cons in Hnd. apply NoDup_cons in Hnd as [Hfresh Hnd].
    simpl update_first in Hin.
    destruct (has_anomaly_id aid x) eqn:Hx.
    + apply elem_of_cons in Hin as [->|Hin]; [done|].
      exfalso. apply Hfresh. apply bool_decide_eq_true in Hx. rewrite Hx, <- Hid.
      apply list_elem_of_fmap. by exists a.
    + apply elem_of_cons in Hin as [->|Hin]; [|by apply IH].
      apply bool_decide_eq_false in Hx. done.
Qed.

(** X9.  Resolve, then list.  In a table with unique anomaly ids, after
    [resolve_anomaly] on an id the listing of unresolved anomalies
    ([resolved=false]) holds no row of that id, for any device filter, window
    and page; and a row of that id in any other listing has [resolved] equal
    to ["true"].  When the id is not stored the call changes nothing and no
    listing has a row of that id. *)
Theorem resolve_then_get_anomalies (anomaly_id : Z) (s : State) :
  NoDup (a_id <$> anomalies s) ->
  forall device_id resolved_filter hours skip limit utcnow a,
    a ∈ get_anomalies device_id resolved_filter hours skip limit utcnow
          (resolve_anomaly anomaly_id s).2 ->
    a_id a = anomaly_id ->
    resolved a = "true" /\ resolved_filter <> Some false.
Proof.
  intros Hnd device_id resolved_filter hours skip limit utcnow a Hin Hid.
  rewrite get_anomalies_unfold in Hin.
  apply (fun H => elem_of_sublist _ _ _ H (page_sublist _ _ _)) in Hin.
  unfold newest_anomaly_first in Hin. rewrite merge_sort_Permutation in Hin.
  apply list_elem_of_filter in Hin as [(_ & Hfil & _) Hstored].
  assert (resolved a = "true") as Hres.
  { unfold resolve_anomaly in Hstored.
    destruct (first (has_anomaly_id anomaly_id) (anomalies s)) as [found|] eqn:Hf;
      simpl in Hstored.
    - by eapply resolved_after_update.
    - exfalso. apply first_None_iff in Hf. rewrite Forall_forall in Hf.
      specialize (Hf a Hstored). apply bool_decide_eq_false in Hf. done. }
  split; [done|]. intros ->. rewrite (Hfil false eq_refl) in Hres. discriminate.
Qed.

(** ** A submission and its background evaluation *)

Lemma dict_device_id (t : TelemetryCreate) :
  dict t !! "device_id" = Some (PStr (tc_device_id t)).
Proof. unfold dict. by simplify_map_eq. Qed.

Lemma dict_temperature (t : TelemetryCreate) :
  dict t !! "temperature" = Some (opt_val (tc_temperature t)).
Proof. unfold dict. by simplify_map_eq. Qed.

Lemma dict_battery (t : TelemetryCreate) :
  dict t !! "battery" = Some (opt_val (tc_battery t)).
Proof. unfold dict. by simplify_map_eq. Qed.

Lemma dict_signal_strength (t : TelemetryCreate) :
  dict t !! "signal_strength" = Some (opt_val (tc_signal_strength t)).
Proof. unfold dict. by simplify_map_eq. Qed.

Lemma anomalies_detected_numbers str_num telemetry_data thresholds tcfg bcfg scfg
    temperature battery signal tmax tmin bmin smin :
  telemetry_data !! "temperature" = Some (PNum temperature) ->
  telemetry_data !! "battery" = Some (PNum battery) ->
  telemetry_data !! "signal_strength" = Some (PNum signal) ->
  thresholds !! "temperature" = Some tcfg ->
  tcfg !! "max" = Some (PNum tmax) ->
  tcfg !! "min" = Some (PNum tmin) ->
  thresholds !! "battery" = Some bcfg ->
  bcfg !! "min" = Some (PNum bmin) ->
  thresholds !! "signal_strength" = Some scfg ->
  scfg !! "min" = Some (PNum smin) ->
  exists found,
    anomalies_detected str_num telemetry_data thresholds = Ok found
    /\ tags found = temperature_rule temperature tmax tmin
                    ++ battery_rule battery bmin
                    ++ signal_rule signal smin.
Proof.
  intros Ht Hb Hs Htc Htmax Htmin Hbc Hbmin Hsc Hsmin.
  destruct (check_temperature_numbers str_num telemetry_data thresholds tcfg
              temperature tmax tmin) as (t & Hct & Htt); try done.
  destruct (check_battery_numbers str_num telemetry_data thresholds bcfg
              battery bmin) as (b & Hcb & Htb); try done.
  destruct (check_signal_strength_numbers str_num telemetry_data thresholds scfg
              signal smin) as (g & Hcg & Htg); try done.
  exists (t ++ b ++ g). unfold anomalies_detected.
  rewrite Hct, Hcb, Hcg. split; [done|].
  unfold tags in *. by rewrite !fmap_app, Htt, Htb, Htg.
Qed.

Lemma background_tasks_save_loop isoformat send_text did db_now found s :
  background_tasks (foldl (save_anomaly isoformat send_text did db_now) s found)
    = background_tasks s.
Proof.
  revert s. induction found as [|c found IH]; intros s; simpl; [done|].
  rewrite IH. unfold save_anomaly, broadcast_anomaly.
  by rewrite background_tasks_manager_broadcast.
Qed.

(** X10.  End to end.  Take a registered device whose thresholds give
    numbers for the temperature [max] and [min], the battery [min] and the
    signal_strength [min], an empty background queue, and a submission that
    reports temperature, battery and signal_strength.  After the submission
    and its background task, the anomaly rows written are exactly the rows of
    the rule table, in order; each is stored unresolved under the device id of
    the submission; nothing is printed, the queue is empty again and the
    device is ONLINE. *)
Theorem submit_then_background_records_rule_table
    (str_num : Q -> string) (isoformat : Z -> string)
    (send_text : WebSocket -> Message -> bool)
    (telemetry_data : TelemetryCreate) (utcnow db_now eval_now : Z) (s : State)
    (device : Device) (thresholds : ThresholdConfig)
    (tcfg bcfg scfg : gmap string pyval)
    (temperature battery signal tmax tmin bmin smin : Q) :
  background_tasks s = [] ->
  first (has_device_id (tc_device_id telemetry_data)) (devices s) = Some device ->
  threshold_config device = Some thresholds ->
  tc_temperature telemetry_data = Some temperature ->
  tc_battery telemetry_data = Some battery ->
  tc_signal_strength telemetry_data = Some signal ->
  thresholds !! "temperature" = Some tcfg ->
  tcfg !! "max" = Some (PNum tmax) ->
  tcfg !! "min" = Some (PNum tmin) ->
  thresholds !! "battery" = Some bcfg ->
  bcfg !! "min" = Some (PNum bmin) ->
  thresholds !! "signal_strength" = Some scfg ->
  scfg !! "min" = Some (PNum smin) ->
  let s' := run str_num isoformat send_text s
              [Submit telemetry_data utcnow db_now; Background eval_now] in
  tags (recorded s s')
    = temperature_rule temperature tmax tmin
      ++ battery_rule battery bmin
      ++ signal_rule signal smin
  /\ Forall (fun a => a_device_id a = tc_device_id telemetry_data
                      /\ resolved a = "false")
            (drop (length (anomalies s)) (anomalies s'))
  /\ printed s s' = []
  /\ background_tasks s' = []
  /\ status_of (tc_device_id telemetry_data) s' = Some ONLINE.
Proof.
  intros Hq Hdev Hcfg Ht Hb Hs Htc Htmax Htmin Hbc Hbmin Hsc Hsmin s'.
  assert (device_id device = tc_device_id telemetry_data) as Hid.
  { apply first_Some_holds in Hdev as [Hp _]. by apply bool_decide_eq_true in Hp. }
  assert (tc_device_id telemetry_data ∈ device_id <$> devices s) as Hknown.
  { apply list_elem_of_fmap. exists device. split; [done|].
    by apply first_Some_holds in Hdev as [_ Hin]. }
  destruct (submit_telemetry_known send_text telemetry_data utcnow db_now s Hknown)
    as (s1 & Hsub & Htel & Han & Hbg & Hout).
  pose proof (devices_submit_telemetry send_text telemetry_data utcnow db_now s)
    as Hdevs.
  rewrite Hsub in Hdevs. simpl in Hdevs.
  pose proof (first_update_first _ (mark_online utcnow) _ _
                (mark_online_keeps_id (tc_device_id telemetry_data) utcnow) Hdev)
    as Hfirst1.
  rewrite <- Hdevs in Hfirst1.
  destruct (anomalies_detected_numbers str_num (dict telemetry_data) thresholds
              tcfg bcfg scfg temperature battery signal tmax tmin bmin smin)
    as (found & Hfound & Htags); try done.
  { by rewrite dict_temperature, Ht. }
  { by rewrite dict_battery, Hb. }
  { by rewrite dict_signal_strength, Hs. }
  assert (s' = foldl (save_anomaly isoformat send_text
                        (tc_device_id telemetry_data) eval_now)
                     (set_background_tasks [] s1) found) as ->.
  { subst s'. unfold run. simpl. rewrite Hsub. simpl.
    unfold run_background_task. rewrite Hbg, Hq. simpl.
    unfold check_anomaly, check_anomaly_try, getitem.
    rewrite dict_device_id. simpl. rewrite Hfirst1. simpl. rewrite Hcfg.
    destruct (size thresholds) eqn:Hsize.
    - apply map_size_empty_inv in Hsize. subst thresholds.
      by rewrite lookup_empty in Htc.
    - rewrite Hfound. simpl. by rewrite Hid. }
  split; [|split; [|split; [|split]]].
  - unfold recorded. rewrite fmap_drop, anomalies_save_loop. simpl.
    rewrite Han, drop_app_length' by (by rewrite length_fmap). done.
  - destruct (save_loop_rows isoformat send_text (tc_device_id telemetry_data)
                eval_now found (set_background_tasks [] s1))
      as (rows & -> & Hrows & _).
    simpl. by rewrite Han, drop_app_length.
  - unfold printed. rewrite stdout_save_loop. simpl. by rewrite Hout, drop_all.
  - by rewrite background_tasks_save_loop.
  - unfold status_of. rewrite devices_save_loop. simpl. by rewrite Hfirst1.
Qed.

(** ** Subscribers and storage *)

Lemma stored_manager_broadcast send_text message s :
  stored (manager_broadcast send_text message s) = stored s.
Proof. unfold manager_broadcast. by destruct (broadcast _ _ _). Qed.

Lemma stored_eq s1 s2 :
  stored s1 = stored s2 ->
  devices s1 = devices s2 /\ telemetry s1 = telemetry s2
  /\ anomalies s1 = anomalies s2 /\ background_tasks s1 = background_tasks s2
  /\ stdout s1 = stdout s2.
Proof. unfold stored. intros [= -> -> -> -> ->]. done. Qed.

Lemma stored_save_anomaly isoformat send1 send2 did db_now c s1 s2 :
  stored s1 = stored s2 ->
  stored (save_anomaly isoformat send1 did db_now s1 c)
    = stored (save_anomaly isoformat send2 did db_now s2 c).
Proof.
  intros Heq. apply stored_eq in Heq as (Hd & Ht & Ha & Hb & Ho).
  unfold save_anomaly, broadcast_anomaly. rewrite !stored_manager_broadcast.
  unfold stored. simpl. by rewrite Hd, Ht, Ha, Hb, Ho.
Qed.

Lemma stored_save_loop isoformat send1 send2 did db_now found s1 s2 :
  stored s1 = stored s2 ->
  stored (foldl (save_anomaly isoformat send1 did db_now) s1 found)
    = stored (foldl (save_anomaly isoformat send2 did db_now) s2 found).
Proof.
  revert s1 s2. induction found as [|c found IH]; intros s1 s2 Heq; simpl; [done|].
  by apply IH, stored_save_anomaly.
Qed.

Lemma stored_check_anomaly str_num isoformat send1 send2 telemetry_data db_now s1 s2 :
  stored s1 = stored s2 ->
  stored (check_anomaly str_num isoformat send1 telemetry_data db_now s1)
    = stored (check_anomaly str_num isoformat send2 telemetry_data db_now s2).
Proof.
  intros Heq. pose proof Heq as (Hd & Ht & Ha & Hb & Ho)%stored_eq.
  unfold check_anomaly, check_anomaly_try.
  destruct (getitem telemetry_data "device_id") as [v|e]; simpl.
  2:{ unfold stored. simpl. by rewrite Hd, Ht, Ha, Hb, Ho. }
  rewrite Hd.
  destruct (device_by v (devices s2)) as [device|]; [|done].
  destruct (threshold_config device) as [thresholds|]; [|done].
  destruct (size thresholds); [done|].
  destruct (anomalies_detected str_num telemetry_data thresholds) as [found|e];
    simpl.
  - by apply stored_save_loop.
  - unfold stored. simpl. by rewrite Hd, Ht, Ha, Hb, Ho.
Qed.

Lemma stored_handle str_num isoformat send1 send2 r s1 s2 :
  stored s1 = stored s2 ->
  stored (handle str_num isoformat send1 s1 r)
    = stored (handle str_num isoformat send2 s2 r).
Proof.
  intros Heq. pose proof Heq as (Hd & Ht & Ha & Hb & Ho)%stored_eq.
  destruct r as [td utcnow db_now|db_now|aid|acc ws|ws]; simpl.
  - unfold submit_telemetry. rewrite Hd.
    destruct (first _ (devices s2)); simpl; [|done].
    unfold broadcast_telemetry, stored. simpl.
    rewrite !devices_manager_broadcast, !telemetry_manager_broadcast,
      !anomalies_manager_broadcast, !background_tasks_manager_broadcast,
      !stdout_manager_broadcast. simpl.
    by rewrite Hd, Ht, Ha, Hb, Ho.
  - unfold run_background_task. rewrite Hb.
    destruct (background_tasks s2) as [|task rest]; [done|].
    apply stored_check_anomaly. unfold stored. simpl. by rewrite Hd, Ht, Ha, Ho.
  - unfold resolve_anomaly. rewrite Ha.
    destruct (first _ (anomalies s2)); simpl; [|done].
    unfold stored. simpl. by rewrite Hd, Ht, Hb, Ho.
  - unfold stored. simpl. by rewrite Hd, Ht, Ha, Hb, Ho.
  - unfold stored. simpl. by rewrite Hd, Ht, Ha, Hb, Ho.
Qed.

(** X11.  Subscribers cannot influence what is stored.  Two serial runs of
    the same requests, from states that agree on the tables, the background
    queue and the printed output but may differ in the connected handles, and
    under any two behaviours of [send_text], agree on the tables, the queue
    and the output at the end: no failing, missing or extra subscriber
    changes a stored row or an evaluation. *)
Theorem run_stored_independent_of_subscribers
    (str_num : Q -> string) (isoformat : Z -> string)
    (send_text1 send_text2 : WebSocket -> Message -> bool)
    (requests : list Request) (s1 s2 : State) :
  stored s1 = stored s2 ->
  stored (run str_num isoformat send_text1 s1 requests)
    = stored (run str_num isoformat send_text2 s2 requests).
Proof.
  unfold run. revert s1 s2.
  induction requests as [|r requests IH]; intros s1 s2 Heq; simpl; [done|].
  by apply IH, stored_handle.
Qed.

Lemma received_by_app c calls1 calls2 :
  received_by c (calls1 ++ calls2) = received_by c calls1 ++ received_by c calls2.
Proof. unfold received_by. by rewrite filter_app, fmap_app. Qed.

Lemma received_by_absent c (send_text : WebSocket -> Message -> bool) message conns :
  c ∉ conns ->
  received_by c ((fun x => (x, message, send_text x message)) <$> conns) = [].
Proof.
  unfold received_by. induction conns as [|x conns IH]; intros Hnot; [done|].
  apply not_elem_of_cons in Hnot as [Hne Hnot].
  rewrite fmap_cons, filter_cons. simpl.
  rewrite decide_False by (intros [? _]; congruence). by apply IH.
Qed.

Lemma received_by_present c (send_text : WebSocket -> Message -> bool) message conns :
  NoDup conns -> c ∈ conns -> send_text c message = true ->
  received_by c ((fun x => (x, message, send_text x message)) <$> conns) = [message].
Proof.
  intros Hnd Hin Hok. induction Hnd as [|x conns Hx Hnd IH].
  - by apply elem_of_nil in Hin.
  - rewrite fmap_cons. unfold received_by in *. rewrite filter_cons. simpl.
    destruct (decide (x = c)) as [->|Hne].
    + rewrite decide_True by (by rewrite Hok). rewrite fmap_cons. simpl. f_equal.
      apply (received_by_absent c send_text message conns Hx).
    + rewrite decide_False by (intros [? _]; congruence).
      apply IH. apply elem_of_cons in Hin as [?|Hin]; [congruence|done].
Qed.

(** One broadcast as a healthy, connected subscriber sees it. *)
Lemma manager_broadcast_healthy send_text message c s :
  NoDup (active_connections s) -> c ∈ active_connections s ->
  (forall m, send_text c m = true) ->
  exists calls,
    wire (manager_broadcast send_text message s) = wire s ++ calls
    /\ received_by c calls = [message]
    /\ NoDup (active_connections (manager_broadcast send_text message s))
    /\ c ∈ active_connections (manager_broadcast send_text message s).
Proof.
  intros Hnd Hin Hok. unfold manager_broadcast. rewrite broadcast_spec. simpl.
  eexists. split; [reflexivity|]. split; [by apply received_by_present|].
  split; [by apply NoDup_filter|]. by apply list_elem_of_filter.
Qed.

Lemma save_loop_healthy isoformat send_text did db_now c found s :
  NoDup (active_connections s) -> c ∈ active_connections s ->
  (forall m, send_text c m = true) ->
  let s' := foldl (save_anomaly isoformat send_text did db_now) s found in
  exists rows calls,
    anomalies s' = anomalies s ++ rows
    /\ wire s' = wire s ++ calls
    /\ received_by c calls = anomaly_envelope isoformat <$> rows
    /\ NoDup (active_connections s') /\ c ∈ active_connections s'.
Proof.
  intros Hnd Hin Hok. revert s Hnd Hin.
  induction found as [|cand found IH]; intros s Hnd Hin; simpl.
  - exists [], []. by rewrite !app_nil_r.
  - set (s1 := save_anomaly isoformat send_text did db_now s cand).
    assert (exists row calls1,
              anomalies s1 = anomalies s ++ [row]
              /\ wire s1 = wire s ++ calls1
              /\ received_by c calls1 = [anomaly_envelope isoformat row]
              /\ NoDup (active_connections s1) /\ c ∈ active_connections s1)
      as (row & calls1 & Han1 & Hw1 & Hr1 & Hnd1 & Hin1).
    { subst s1. unfold save_anomaly, broadcast_anomaly.
      match goal with
      | |- context [manager_broadcast send_text ?m ?st] =>
          destruct (manager_broadcast_healthy send_text m c st)
            as (calls1 & Hw & Hr & Hnd' & Hin'); try done
      end.
      rewrite anomalies_manager_broadcast. simpl.
      eexists _, calls1. split; [reflexivity|]. by repeat split. }
    destruct (IH s1 Hnd1 Hin1) as (rows & calls & Han & Hw & Hr & Hnd' & Hin').
    exists (row :: rows), (calls1 ++ calls).
    rewrite Han, Han1, Hw, Hw1, <- !app_assoc, received_by_app, Hr1, Hr.
    by repeat split.
Qed.

Lemma check_anomaly_healthy str_num isoformat send_text telemetry_data db_now c s :
  NoDup (active_connections s) -> c ∈ active_connections s ->
  (forall m, send_text c m = true) ->
  let s' := check_anomaly str_num isoformat send_text telemetry_data db_now s in
  exists rows calls,
    anomalies s' = anomalies s ++ rows
    /\ wire s' = wire s ++ calls
    /\ received_by c calls = anomaly_envelope isoformat <$> rows
    /\ NoDup (active_connections s') /\ c ∈ active_connections s'.
Proof.
  intros Hnd Hin Hok.
  assert (exists (rows : list Anomaly) (calls : list Send),
            anomalies s = anomalies s ++ rows
            /\ wire s = wire s ++ calls
            /\ received_by c calls = anomaly_envelope isoformat <$> rows
            /\ NoDup (active_connections s) /\ c ∈ active_connections s)
    as Hsame.
  { exists [], []. by rewrite !app_nil_r. }
  unfold check_anomaly, check_anomaly_try.
  destruct (getitem telemetry_data "device_id") as [v|e]; simpl; [|done].
  destruct (device_by v (devices s)) as [device|]; [|done].
  destruct (threshold_config device) as [thresholds|]; [|done].
  destruct (size thresholds); [done|].
  destruct (anomalies_detected str_num telemetry_data thresholds) as [found|e];
    simpl; [|done].
  by apply save_loop_healthy.
Qed.

(** X12.  What a healthy subscriber receives.  Let the background queue be
    empty, the device of a submission registered, the live list without
    repetition, and [c] a connected handle whose [send_text] always returns.
    From the submission and its background task, [c] receives first the
    telemetry envelope with the submitted data and then one anomaly envelope
    per anomaly row written, in the order the rows are stored; [c] stays
    connected, whatever happens to the other subscribers. *)
Theorem subscriber_receives_telemetry_then_anomalies
    (str_num : Q -> string) (isoformat : Z -> string)
    (send_text : WebSocket -> Message -> bool)
    (telemetry_data : TelemetryCreate) (utcnow db_now eval_now : Z)
    (c : WebSocket) (s : State) :
  background_tasks s = [] ->
  tc_device_id telemetry_data ∈ device_id <$> devices s ->
  NoDup (active_connections s) ->
  c ∈ active_connections s ->
  (forall m, send_text c m = true) ->
  let s' := run str_num isoformat send_text s
              [Submit telemetry_data utcnow db_now; Background eval_now] in
  received_by c (drop (length (wire s)) (wire s'))
    = {| m_type := "telemetry"; m_data := dict telemetry_data |}
      :: (anomaly_envelope isoformat
            <$> drop (length (anomalies s)) (anomalies s'))
  /\ c ∈ active_connections s'.
Proof.
  intros Hq Hknown Hnd Hin Hok s'.
  destruct (first_device_known _ _ Hknown) as (d & Hfirst & _).
  destruct (submit_telemetry_known send_text telemetry_data utcnow db_now s Hknown)
    as (s1 & Hsub & _ & Han1 & Hbg & _).
  assert (exists calls1,
            wire s1 = wire s ++ calls1
            /\ received_by c calls1
                 = [{| m_type := "telemetry"; m_data := dict telemetry_data |}]
            /\ NoDup (active_connections s1) /\ c ∈ active_connections s1)
    as (calls1 & Hw1 & Hr1 & Hnd1 & Hin1).
  { unfold submit_telemetry in Hsub. rewrite Hfirst in Hsub.
    injection Hsub as <-. simpl. unfold broadcast_telemetry.
    match goal with
    | |- context [manager_broadcast send_text ?m ?st] =>
        destruct (manager_broadcast_healthy send_text m c st)
          as (calls1 & Hw & Hr & Hnd' & Hin'); try done
    end.
    by exists calls1. }
  subst s'. unfold run. simpl. rewrite Hsub. simpl.
  unfold run_background_task. rewrite Hbg, Hq. simpl.
  destruct (check_anomaly_healthy str_num isoformat send_text
              (dict telemetry_data) eval_now c (set_background_tasks [] s1))
    as (rows & calls & Han & Hw & Hr & _ & Hin'); try done.
  simpl in Han, Hw. split; [|done].
  rewrite Han, Hw, Han1, Hw1, <- app_assoc, !drop_app_length.
  by rewrite received_by_app, Hr1, Hr.
Qed.

(** ** The connection manager beyond one failing handle *)

Lemma remove_first_Permutation (x : WebSocket) (l : list WebSocket) :
  x ∈ l -> x :: remove_first x l ≡ₚ l.
Proof.
  induction l as [|y l IH]; intros Hin; [by apply elem_of_nil in Hin|].
  simpl. destruct (decide (x = y)) as [->|Hne]; [done|].
  apply elem_of_cons in Hin as [?|Hin]; [done|].
  rewrite Permutation_swap. by rewrite IH.
Qed.

Lemma remove_first_length (x : WebSocket) (l : list WebSocket) :
  x ∈ l -> S (length (remove_first x l)) = length l.
Proof.
  intros Hin.
  apply (Permutation_length (remove_first_Permutation x l Hin)).
Qed.


(** X14.  Any broadcast.  Whatever handles fail, [send_text] is called once
    per entry of the live list in order, and the list afterwards holds
    exactly the entries whose call returned, in their old order: every entry
    of a failing handle is gone, also when the handle is listed several
    times, and no other entry is touched.  A broadcast in which every call
    returns leaves the list as it is, and repeating a broadcast under the
    same outcomes removes nothing more. *)
Theorem broadcast_keeps_exactly_the_reached
    (send_text : WebSocket -> Message -> bool) (message : Message)
    (conns : list WebSocket) :
  attempted (broadcast send_text message conns).1 = conns
  /\ (broadcast send_text message conns).2
       = filter (fun c => send_text c message = true) conns
  /\ (forall c, send_text c message = false ->
                c ∉ (broadcast send_text message conns).2)
  /\ (forall c, send_text c message = true ->
                filter (fun x => x = c) (broadcast send_text message conns).2
                  = filter (fun x => x = c) conns)
  /\ (Forall (fun c => send_text c message = true) conns ->
        (broadcast send_text message conns).2 = conns)
  /\ (broadcast send_text message (broadcast send_text message conns).2).2
       = (broadcast send_text message conns).2.
Proof.
  split; [apply attempted_broadcast|].
  rewrite !broadcast_spec. simpl. split; [done|]. split; [|split; [|split]].
  - intros c Hfail Hin. apply list_elem_of_filter in Hin as [Hok _]. congruence.
  - intros c Hok. rewrite list_filter_filter. apply list_filter_iff.
    intros x. split; [tauto|]. intros ->. done.
  - intros Hall. induction Hall as [|c conns Hc Hall IH]; [done|].
    by rewrite filter_cons, decide_True, IH by done.
  - rewrite list_filter_filter. apply list_filter_iff. intros c. tauto.
Qed.

(** X15.  [send_personal_message] touches at most the handle it sends to:
    when the send returns the live list is unchanged; when it raises, one
    entry of that handle is dropped if there is one, and the entries of every
    other handle stay as they are, in order. *)
Theorem send_personal_message_isolated {M}
    (send_text : WebSocket -> M -> bool) (message : M)
    (websocket : WebSocket) (conns : list WebSocket) :
  (send_text websocket message = true ->
     send_personal_message send_text message websocket conns = (true, conns))
  /\ (send_text websocket message = false ->
        (send_personal_message send_text message websocket conns).1 = false
        /\ (websocket ∈ conns ->
              S (length (send_personal_message send_text message websocket conns).2)
                = length conns)
        /\ (websocket ∉ conns ->
              (send_personal_message send_text message websocket conns).2 = conns))
  /\ filter (fun c => c <> websocket)
       (send_personal_message send_text message websocket conns).2
     = filter (fun c => c <> websocket) conns.
Proof.
  unfold send_personal_message.
  destruct (send_text websocket message); simpl.
  - split; [done|]. split; [discriminate | done].
  - split; [discriminate|]. unfold disconnect. split.
    + intros _. split; [done|]. split.
      * intros Hin. rewrite (bool_decide_eq_true_2 _ Hin).
        by apply remove_first_length.
      * intros Hnot. by rewrite (bool_decide_eq_false_2 _ Hnot).
    + case_bool_decide as Hin; [|done].
      clear Hin. induction conns as [|y conns IH]; [done|]. simpl.
      destruct (decide (websocket = y)) as [->|Hne].
      * by rewrite filter_cons, decide_False by (intros H; by apply H).
      * by rewrite !filter_cons, IH.
Qed.

(** ** The heartbeat loop of [websocket_endpoint] *)




(** ** [prepare_features] *)





(** ** Device administration *)

Lemma first_app_None {A} (p : A -> bool) (rows : list A) (r : A) :
  first p rows = None -> first p (rows ++ [r]) = if p r then Some r else None.
Proof.
  unfold first. induction rows as [|x rows IH]; simpl; [done|].
  destruct (p x); [discriminate | apply IH].
Qed.

Lemma first_app_Some {A} (p : A -> bool) (rows more : list A) (r : A) :
  first p rows = Some r -> first p (rows ++ more) = Some r.
Proof.
  unfold first. induction rows as [|x rows IH]; simpl; [discriminate|].
  destruct (p x); [done | apply IH].
Qed.

Lemma first_other_device (other : string) (rows : list Device) (d : Device) :
  other <> device_id d ->
  first (has_device_id other) (rows ++ [d]) = first (has_device_id other) rows.
Proof.
  intros Hne. destruct (first (has_device_id other) rows) as [x|] eqn:Hf.
  - by apply first_app_Some.
  - rewrite (first_app_None _ _ _ Hf). unfold has_device_id.
    by rewrite bool_decide_eq_false_2.
Qed.

Lemma delete_first_sublist {A} (p : A -> bool) (rows : list A) :
  delete_first p rows `sublist_of` rows.
Proof.
  induction rows as [|x rows IH]; simpl; [done|].
  destruct (p x); [by apply sublist_cons | by apply sublist_skip].
Qed.

Lemma first_delete_first (did : string) (rows : list Device) :
  NoDup (device_id <$> rows) ->
  first (has_device_id did) (delete_first (has_device_id did) rows) = None.
Proof.
  induction rows as [|x rows IH]; intros Hnd; [done|].
  rewrite fmap_cons in Hnd. apply NoDup_cons in Hnd as [Hfresh Hnd].
  simpl. destruct (has_device_id did x) eqn:Hx.
  - apply first_device_unknown. apply bool_decide_eq_true in Hx. by rewrite <- Hx.
  - unfold first in *. simpl. rewrite Hx. by apply IH.
Qed.

Lemma first_delete_other (did other : string) (rows : list Device) :
  other <> did ->
  first (has_device_id other) (delete_first (has_device_id did) rows)
    = first (has_device_id other) rows.
Proof.
  intros Hne. unfold first. induction rows as [|x rows IH]; simpl; [done|].
  destruct (has_device_id did x) eqn:Hx; simpl.
  - apply bool_decide_eq_true in Hx. unfold has_device_id at 2.
    by rewrite bool_decide_eq_false_2 by congruence.
  - by rewrite IH.
Qed.

Lemma get_device_first did sv :
  get_device did sv
    = match first (has_device_id did) (devices (core sv)) with
      | Some d => Ok d
      | None => Raise (HTTPException 404 "Device not found")
      end.
Proof. unfold get_device. by destruct (first _ _). Qed.

(** X18.  [create_device] refuses an id that is taken with the 400 "Device
    with this ID already exists" and changes nothing, not even the audit
    table.  For a free id it succeeds: the new device is what [get_device]
    returns for that id afterwards, it starts OFFLINE and never seen, with
    the thresholds given; every other device is found as before; the
    telemetry and anomaly tables are untouched; and one CREATE_DEVICE row
    naming the caller and the device is added to the audit table. *)
Theorem create_device_then_get_device
    (device_data : DeviceCreate) (current_user db_now : Z) (sv : Service) :
  (dc_device_id device_data ∈ device_id <$> devices (core sv) ->
     create_device device_data current_user db_now sv
       = (Raise (Http (HTTPException 400 "Device with this ID already exists")), sv))
  /\ (dc_device_id device_data ∉ device_id <$> devices (core sv) ->
      exists device sv' entry,
        create_device device_data current_user db_now sv = (Ok device, sv')
        /\ get_device (dc_device_id device_data) sv' = Ok device
        /\ status device = OFFLINE
        /\ last_seen device = None
        /\ threshold_config device = dc_threshold_config device_data
        /\ (forall other, other <> dc_device_id device_data ->
                          get_device other sv' = get_device other sv)
        /\ telemetry (core sv') = telemetry (core sv)
        /\ anomalies (core sv') = anomalies (core sv)
        /\ audit_logs sv' = audit_logs sv ++ [entry]
        /\ action entry = "CREATE_DEVICE"
        /\ admin_id entry = current_user
        /\ target_id entry = Some (dc_device_id device_data)).
Proof.
  split.
  - intros Htaken. destruct (first_device_known _ _ Htaken) as (d & Hfirst & _).
    unfold create_device. by rewrite Hfirst.
  - intros Hfree. pose proof (first_device_unknown _ _ Hfree) as Hfirst.
    unfold create_device. rewrite Hfirst.
    eexists _, _, _. split; [reflexivity|].
    rewrite !get_device_first. simpl.
    rewrite (first_app_None _ _ _ Hfirst). unfold has_device_id at 1. simpl.
    rewrite bool_decide_eq_true_2 by done.
    repeat split; try done.
    intros other Hne. rewrite get_device_first. simpl.
    by rewrite first_other_device.
Qed.

Lemma apply_update_keeps_id (did : string) (u : DeviceUpdate) (d : Device) :
  has_device_id did d = true -> has_device_id did (apply_update u d) = true.
Proof. done. Qed.

Lemma update_device_known did u current_user db_now sv device :
  first (has_device_id did) (devices (core sv)) = Some device ->
  du_name u <> Some None ->
  exists sv',
    update_device did u current_user db_now sv = (Ok (apply_update u device), sv')
    /\ devices (core sv')
         = update_first (has_device_id did) (apply_update u) (devices (core sv))
    /\ telemetry (core sv') = telemetry (core sv)
    /\ anomalies (core sv') = anomalies (core sv)
    /\ active_connections (core sv') = active_connections (core sv)
    /\ wire (core sv') = wire (core sv)
    /\ background_tasks (core sv') = background_tasks (core sv)
    /\ stdout (core sv') = stdout (core sv).
Proof.
  intros Hfirst Hname. unfold update_device. rewrite Hfirst.
  destruct (du_name u) as [[n|]|]; try done; eexists; by repeat split.
Qed.

(** X19.  [update_device] on an id that is not registered fails with the 404
    and changes nothing; with [name] set to null the commit is rejected and
    nothing changes.  Otherwise it succeeds, and the device found under the
    id afterwards has the new value in each field that was set and the old
    value in each field that was not; its id, [device_id], status and
    [last_seen] are never changed by an update, every other device is found
    as before, and the telemetry and anomaly tables are untouched. *)
Theorem update_device_sets_only_given_fields
    (did : string) (u : DeviceUpdate) (current_user db_now : Z) (sv : Service) :
  (did ∉ device_id <$> devices (core sv) ->
     update_device did u current_user db_now sv
       = (Raise (Http (HTTPException 404 "Device not found")), sv))
  /\ (did ∈ device_id <$> devices (core sv) -> du_name u = Some None ->
        update_device did u current_user db_now sv = (Raise IntegrityError, sv))
  /\ (forall old,
        first (has_device_id did) (devices (core sv)) = Some old ->
        du_name u <> Some None ->
        exists new sv',
          update_device did u current_user db_now sv = (Ok new, sv')
          /\ get_device did sv' = Ok new
          /\ (id new, device_id new, status new, last_seen new)
               = (id old, device_id old, status old, last_seen old)
          /\ name new = match du_name u with Some (Some n) => n | _ => name old end
          /\ lat new = updated (du_lat u) (lat old)
          /\ lng new = updated (du_lng u) (lng old)
          /\ threshold_config new
               = updated (du_threshold_config u) (threshold_config old)
          /\ (forall other, other <> did ->
                            get_device other sv' = get_device other sv)
          /\ telemetry (core sv') = telemetry (core sv)
          /\ anomalies (core sv') = anomalies (core sv)).
Proof.
  split; [|split].
  - intros Hunknown. unfold update_device.
    by rewrite (first_device_unknown _ _ Hunknown).
  - intros Hknown Hnull. destruct (first_device_known _ _ Hknown) as (d & Hfirst & _).
    unfold update_device. by rewrite Hfirst, Hnull.
  - intros old Hfirst Hname.
    destruct (update_device_known did u current_user db_now sv old Hfirst Hname)
      as (sv' & Hupd & Hdev & Htel & Han & _).
    exists (apply_update u old), sv'. split; [done|].
    rewrite get_device_first, Hdev.
    rewrite (first_update_first _ _ _ _ (apply_update_keeps_id did u) Hfirst).
    repeat split; try done.
    intros other Hne. rewrite !get_device_first, Hdev.
    rewrite first_update_other; [done| |done].
    intros d Hd. apply bool_decide_eq_true in Hd.
    unfold has_device_id. apply bool_decide_eq_false. congruence.
Qed.

(** X20.  New thresholds take effect at the next evaluation.  After
    [update_device] has set [threshold_config] of a device, a run of
    [check_anomaly] for a sample of that device records and prints what the
    rules give under the new configuration; in particular after the
    configuration was set to null it records and prints nothing. *)
Theorem update_device_thresholds_then_check_anomaly
    (str_num : Q -> string) (isoformat : Z -> string)
    (send_text : WebSocket -> Message -> bool)
    (did : string) (u : DeviceUpdate) (cfg : option ThresholdConfig)
    (current_user db_now eval_now : Z) (telemetry_data : gmap string pyval)
    (sv : Service) :
  did ∈ device_id <$> devices (core sv) ->
  du_name u <> Some None ->
  du_threshold_config u = Some cfg ->
  telemetry_data !! "device_id" = Some (PStr did) ->
  let s' := core (update_device did u current_user db_now sv).2 in
  let s'' := check_anomaly str_num isoformat send_text telemetry_data eval_now s' in
  (recorded s' s'', printed s' s'') = evaluation str_num telemetry_data cfg
  /\ (cfg = None -> s'' = s').
Proof.
  intros Hknown Hname Hcfg Hid s' s''.
  destruct (first_device_known _ _ Hknown) as (old & Hfirst & _).
  destruct (update_device_known did u current_user db_now sv old Hfirst Hname)
    as (sv' & Hupd & Hdev & _).
  assert (first (has_device_id did) (devices s') = Some (apply_update u old))
    as Hfirst'.
  { subst s'. rewrite Hupd. simpl. rewrite Hdev.
    by apply first_update_first; [apply apply_update_keeps_id|]. }
  assert (threshold_config (apply_update u old) = cfg) as Hnew.
  { simpl. by rewrite Hcfg. }
  split.
  - subst s''.
    rewrite (check_anomaly_observed str_num isoformat send_text telemetry_data
               did (apply_update u old) eval_now s' Hid Hfirst').
    by rewrite Hnew.
  - intros ->. subst s''. unfold check_anomaly, check_anomaly_try, getitem.
    rewrite Hid. simpl. rewrite Hfirst'. by rewrite Hnew.
Qed.

Lemma first_None_unknown (did : string) (rows : list Device) :
  first (has_device_id did) rows = None -> did ∉ device_id <$> rows.
Proof.
  intros Hnone Hin. destruct (first_device_known _ _ Hin) as (d & Hsome & _).
  congruence.
Qed.

Lemma not_referenced (did : string) (s : State) :
  referenced did s = false ->
  Forall (fun t => t_device_id t <> did) (telemetry s)
  /\ Forall (fun a => a_device_id a <> did) (anomalies s).
Proof.
  unfold referenced. intros Href. apply orb_false_iff in Href as [Ht Ha].
  split; apply Forall_forall; intros x Hx Heq.
  - assert (existsb (fun t => bool_decide (t_device_id t = did)) (telemetry s) = true)
      as Hex; [|congruence].
    apply existsb_exists. exists x. split; [by apply list_elem_of_In|].
    by apply bool_decide_eq_true.
  - assert (existsb (fun a => bool_decide (a_device_id a = did)) (anomalies s) = true)
      as Hex; [|congruence].
    apply existsb_exists. exists x. split; [by apply list_elem_of_In|].
    by apply bool_decide_eq_true.
Qed.

Lemma delete_device_known fk_enforced did current_user db_now sv :
  did ∈ device_id <$> devices (core sv) ->
  fk_enforced = false \/ referenced did (core sv) = false ->
  exists sv',
    delete_device fk_enforced did current_user db_now sv
      = (Ok "Device deleted successfully", sv')
    /\ devices (core sv') = delete_first (has_device_id did) (devices (core sv))
    /\ telemetry (core sv') = telemetry (core sv)
    /\ anomalies (core sv') = anomalies (core sv)
    /\ exists entry, audit_logs sv' = audit_logs sv ++ [entry]
                     /\ al_id entry = next_id (al_id <$> audit_logs sv).
Proof.
  intros Hknown Hfree. destruct (first_device_known _ _ Hknown) as (d & Hfirst & _).
  unfold delete_device. rewrite Hfirst.
  assert (fk_enforced && referenced did (core sv) = false) as ->.
  { destruct Hfree as [-> | ->]; [done | by rewrite andb_false_r]. }
  eexists. split; [reflexivity|]. repeat split; try done.
  eexists. split; [reflexivity|done].
Qed.

(** X21.  [delete_device] on an id that is not registered fails with the 404
    and changes nothing.  When the database enforces the foreign keys and a
    telemetry or anomaly row names the device, the commit is rejected and
    nothing changes.  Otherwise, with device ids unique, the device is gone:
    [get_device] answers 404 for it and a later telemetry submission for it
    is refused with the 404 and no effect; every other device is found as
    before; and the telemetry and anomaly rows stay in their tables, those of
    the deleted device included. *)
Theorem delete_device_then_unknown
    (fk_enforced : bool) (did : string) (current_user db_now : Z) (sv : Service) :
  (did ∉ device_id <$> devices (core sv) ->
     delete_device fk_enforced did current_user db_now sv
       = (Raise (Http (HTTPException 404 "Device not found")), sv))
  /\ (did ∈ device_id <$> devices (core sv) ->
      fk_enforced = true -> referenced did (core sv) = true ->
      delete_device fk_enforced did current_user db_now sv
        = (Raise IntegrityError, sv))
  /\ (did ∈ device_id <$> devices (core sv) ->
      NoDup (device_id <$> devices (core sv)) ->
      fk_enforced = false \/ referenced did (core sv) = false ->
      exists sv',
        delete_device fk_enforced did current_user db_now sv
          = (Ok "Device deleted successfully", sv')
        /\ get_device did sv' = Raise (HTTPException 404 "Device not found")
        /\ (forall other, other <> did ->
                          get_device other sv' = get_device other sv)
        /\ telemetry (core sv') = telemetry (core sv)
        /\ anomalies (core sv') = anomalies (core sv)
        /\ (forall send_text telemetry_data utcnow now,
              tc_device_id telemetry_data = did ->
              submit_telemetry send_text telemetry_data utcnow now (core sv')
                = (Raise (HTTPException 404 "Device not found"), core sv'))).
Proof.
  split; [|split].
  - intros Hunknown. unfold delete_device.
    by rewrite (first_device_unknown _ _ Hunknown).
  - intros Hknown -> Href. destruct (first_device_known _ _ Hknown) as (d & Hfirst & _).
    unfold delete_device. by rewrite Hfirst, Href.
  - intros Hknown Hnd Hfree.
    destruct (delete_device_known fk_enforced did current_user db_now sv Hknown Hfree)
      as (sv' & Hdel & Hdev & Htel & Han & _).
    exists sv'. split; [done|].
    pose proof (first_delete_first did _ Hnd) as Hgone. rewrite <- Hdev in Hgone.
    rewrite get_device_first, Hgone. repeat split; try done.
    + intros other Hne. rewrite !get_device_first, Hdev.
      by rewrite first_delete_other.
    + intros send_text td utcnow now <-. unfold submit_telemetry. by rewrite Hgone.
Qed.

Lemma ids_handle str_num isoformat send_text s r :
  id <$> devices (handle str_num isoformat send_text s r) = id <$> devices s.
Proof.
  destruct r as [td utcnow db_now|db_now|aid|acc ws|ws]; simpl.
  - rewrite devices_submit_telemetry. by apply update_first_keys.
  - unfold run_background_task. destruct (background_tasks s); [done|].
    by rewrite devices_check_anomaly.
  - unfold resolve_anomaly. by destruct (first _ (anomalies s)).
  - done.
  - done.
Qed.

Lemma handle_admin_keeps_keys_unique str_num isoformat send_text fk_enforced sv r :
  service_keys_unique sv ->
  service_keys_unique (handle_admin str_num isoformat send_text fk_enforced sv r).
Proof.
  intros Hsv. pose proof Hsv as ((Hdid & Htel & Han) & Hid & Hlog).
  destruct r as [r|data user now|did u user now|did user now]; simpl.
  - split; [|split; [|done]].
    + by apply handle_keeps_keys_unique.
    + simpl. by rewrite ids_handle.
  - unfold create_device.
    destruct (first _ (devices (core sv))) as [d|] eqn:Hfirst; simpl; [done|].
    apply first_None_unknown in Hfirst.
    split; [split; [|done]|split]; simpl.
    + rewrite fmap_app. apply NoDup_app. split; [done|]. split.
      * intros x Hx Hnew. apply list_elem_of_singleton in Hnew. by subst.
      * apply NoDup_singleton.
    + rewrite fmap_app. by apply NoDup_snoc_fresh.
    + unfold log_audit. rewrite fmap_app. by apply NoDup_snoc_fresh.
  - unfold update_device.
    destruct (first _ (devices (core sv))) as [d|] eqn:Hfirst; [|done].
    assert (service_keys_unique
              {| core := set_devices
                   (update_first (has_device_id did) (apply_update u)
                      (devices (core sv))) (core sv);
                 audit_logs := log_audit user "UPDATE_DEVICE"
                   (Some (device_key (apply_update u d)))
                   (Some ("Updated device " +:+ name (apply_update u d))) now
                   (audit_logs sv) |}) as Hok.
    { split; [split; [|done]|split]; simpl.
      - by rewrite update_first_keys.
      - by rewrite update_first_keys.
      - unfold log_audit. rewrite fmap_app. by apply NoDup_snoc_fresh. }
    destruct (du_name u) as [[n|]|]; [exact Hok | exact Hsv | exact Hok].
  - unfold delete_device.
    destruct (first _ (devices (core sv))) as [d|] eqn:Hfirst; simpl; [|done].
    destruct (fk_enforced && referenced did (core sv)); simpl; [done|].
    split; [split; [|done]|split]; simpl.
    + eapply sublist_NoDup; [exact Hdid | apply fmap_sublist, delete_first_sublist].
    + eapply sublist_NoDup; [exact Hid | apply fmap_sublist, delete_first_sublist].
    + unfold log_audit. rewrite fmap_app. by apply NoDup_snoc_fresh.
Qed.

(** X22.  Unique keys are kept by administration too: from a state whose
    device ids, row ids of the device, telemetry, anomaly and audit tables
    are each without repetition, every serial run of core requests and of
    device creations, updates and deletions ends in such a state.  It is the
    lookup in [create_device] that keeps [device_id] unique. *)
Theorem run_admin_keeps_keys_unique
    (str_num : Q -> string) (isoformat : Z -> string)
    (send_text : WebSocket -> Message -> bool) (fk_enforced : bool)
    (requests : list AdminRequest) (sv : Service) :
  service_keys_unique sv ->
  service_keys_unique
    (run_admin str_num isoformat send_text fk_enforced sv requests).
Proof.
  unfold run_admin. revert sv.
  induction requests as [|r requests IH]; intros sv Hsv; simpl; [done|].
  by apply IH, handle_admin_keeps_keys_unique.
Qed.

Lemma elem_of_delete_first (did x : string) (rows : list Device) :
  x ∈ device_id <$> rows -> x <> did ->
  x ∈ device_id <$> delete_first (has_device_id did) rows.
Proof.
  intros Hin Hne. induction rows as [|d rows IH]; [done|].
  rewrite fmap_cons in Hin. simpl.
  destruct (has_device_id did d) eqn:Hd.
  - apply elem_of_cons in Hin as [->|Hin]; [|done].
    apply bool_decide_eq_true in Hd. congruence.
  - rewrite fmap_cons. apply elem_of_cons in Hin as [->|Hin]; [by left|].
    right. by apply IH.
Qed.

Lemma handle_admin_keeps_references str_num isoformat send_text sv r :
  references_resolve (core sv) ->
  references_resolve (core (handle_admin str_num isoformat send_text true sv r)).
Proof.
  intros Hrefs.
  destruct r as [r|data user now|did u user now|did user now]; simpl.
  - by apply handle_keeps_references.
  - unfold create_device.
    destruct (first _ (devices (core sv))) as [d|]; simpl; [done|].
    destruct Hrefs as [Htel Han]. unfold references_resolve. simpl.
    split; (eapply Forall_impl; [eassumption|]); intros x Hx;
      rewrite fmap_app; apply elem_of_app; by left.
  - unfold update_device.
    destruct (first _ (devices (core sv))) as [d|]; [|done].
    assert (references_resolve
              (set_devices (update_first (has_device_id did) (apply_update u)
                              (devices (core sv))) (core sv))) as Hok.
    { unfold references_resolve. simpl. by rewrite update_first_keys. }
    destruct (du_name u) as [[n|]|]; [exact Hok | exact Hrefs | exact Hok].
  - unfold delete_device.
    destruct (first _ (devices (core sv))) as [d|]; simpl; [|done].
    destruct (referenced did (core sv)) eqn:Href; simpl; [done|].
    apply not_referenced in Href as [Hnt Hna].
    destruct Hrefs as [Htel Han]. unfold references_resolve. simpl. split.
    + rewrite Forall_forall in *. intros t Ht.
      apply elem_of_delete_first; [by apply Htel | by apply Hnt].
    + rewrite Forall_forall in *. intros a Ha.
      apply elem_of_delete_first; [by apply Han | by apply Hna].
Qed.

(** X23.  When the database enforces the foreign keys, references are kept
    by administration too: from a state in which every telemetry row and
    every anomaly row names a registered device, every serial run of core
    requests and of device creations, updates and deletions ends in such a
    state. *)
Theorem run_admin_keeps_references
    (str_num : Q -> string) (isoformat : Z -> string)
    (send_text : WebSocket -> Message -> bool)
    (requests : list AdminRequest) (sv : Service) :
  references_resolve (core sv) ->
  references_resolve
    (core (run_admin str_num isoformat send_text true sv requests)).
Proof.
  unfold run_admin. revert sv.
  induction requests as [|r requests IH]; intros sv Hsv; simpl; [done|].
  by apply IH, handle_admin_keeps_references.
Qed.

(** ** The properties at concrete inputs *)


Lemma submit_then_get_latest_witness :
  exists row s',
    submit_telemetry only_first (sample "dev-1" (Some 21%Q) None None) 40 40
      demo_state = (Ok row, s')
    /\ get_latest_telemetry "dev-1" s' = Ok row
    /\ t_timestamp row = 40.
Proof.
  destruct (submit_then_get_latest only_first
              (sample "dev-1" (Some 21%Q) None None) 40 40 demo_state)
    as (row & s' & Hsub & Hlatest & Hts & _).
  - apply (bool_decide_unpack _). vm_compute. exact I.
  - apply (proj1 (Forall_forall
                    (fun r => t_device_id r = "dev-1" -> t_timestamp r < 40)
                    (telemetry demo_state))).
    apply (bool_decide_unpack _). vm_compute. exact I.
  - exists row, s'. by repeat split.
Defined.

Lemma run_keeps_keys_unique_witness :
  keys_unique
    (run plain_num plain_time only_first demo_state
       [Submit (sample "dev-1" (Some 90%Q) (Some 5%Q) (Some (-90)%Q)) 40 40;
        Background 41; Resolve 1; Connect true 4%nat]).
Proof.
  apply run_keeps_keys_unique.
  apply (bool_decide_unpack _). vm_compute. exact I.
Defined.

Lemma run_keeps_references_witness :
  references_resolve
    (run plain_num plain_time only_first demo_state
       [Submit (sample "dev-1" (Some 90%Q) (Some 5%Q) (Some (-90)%Q)) 40 40;
        Background 41; Resolve 1; Connect true 4%nat]).
Proof.
  apply run_keeps_references.
  apply (bool_decide_unpack _). vm_compute. exact I.
Defined.

Lemma run_keeps_history_witness :
  exists a',
    anomalies
      (run plain_num plain_time only_first demo_state
         [Resolve 1; Submit (sample "dev-1" (Some 90%Q) None None) 40 40;
          Background 41]) !! 1%nat = Some a'
    /\ a' = anomaly_row 2 "dev-2" "true".
Proof.
  apply (proj2 (proj2 (run_keeps_history plain_num plain_time only_first
           [Resolve 1; Submit (sample "dev-1" (Some 90%Q) None None) 40 40;
            Background 41] demo_state))); reflexivity.
Defined.

Lemma resolve_then_get_anomalies_witness :
  resolved (mark_resolved (anomaly_row 1 "dev-1" "false")) = "true"
  /\ Some true <> Some false.
Proof.
  apply (resolve_then_get_anomalies 1 demo_state
           ltac:(apply (bool_decide_unpack _); vm_compute; exact I)
           (Some "dev-1") (Some true) 1 0%nat 10%nat 100
           (mark_resolved (anomaly_row 1 "dev-1" "false"))).
  - vm_compute. left.
  - reflexivity.
Defined.

Lemma submit_then_background_records_rule_table_witness :
  tags (recorded demo_state
          (run plain_num plain_time only_first demo_state
             [Submit (sample "dev-1" (Some 90%Q) (Some 5%Q) (Some (-90)%Q)) 40 40;
              Background 41]))
    = temperature_rule 90 85 0 ++ battery_rule 5 20 ++ signal_rule (-90) (-80).
Proof.
  apply (submit_then_background_records_rule_table plain_num plain_time only_first
           (sample "dev-1" (Some 90%Q) (Some 5%Q) (Some (-90)%Q)) 40 40 41
           demo_state
           (device_row 1 "dev-1" OFFLINE (Some simulator_thresholds))
           simulator_thresholds
           {[ "min" := PNum 0; "max" := PNum 85 ]}
           {[ "min" := PNum 20 ]}
           {[ "min" := PNum (-80) ]}
           90%Q 5%Q (-90)%Q 85%Q 0%Q 20%Q (-80)%Q);
    vm_compute; reflexivity.
Defined.

Lemma run_stored_independent_of_subscribers_witness :
  stored (run plain_num plain_time only_first demo_state
            [Submit (sample "dev-1" (Some 90%Q) (Some 5%Q) None) 40 40;
             Background 41; Disconnect 2%nat])
  = stored (run plain_num plain_time (fun _ _ => false)
              (set_manager [] [] demo_state)
              [Submit (sample "dev-1" (Some 90%Q) (Some 5%Q) None) 40 40;
               Background 41; Disconnect 2%nat]).
Proof.
  apply run_stored_independent_of_subscribers. reflexivity.
Defined.

Lemma subscriber_receives_telemetry_then_anomalies_witness :
  1%nat ∈ active_connections
    (run plain_num plain_time only_first demo_state
       [Submit (sample "dev-1" (Some 90%Q) (Some 5%Q) (Some (-90)%Q)) 40 40;
        Background 41]).
Proof.
  apply (subscriber_receives_telemetry_then_anomalies plain_num plain_time
           only_first (sample "dev-1" (Some 90%Q) (Some 5%Q) (Some (-90)%Q))
           40 40 41 1%nat demo_state).
  - reflexivity.
  - apply (bool_decide_unpack _). vm_compute. exact I.
  - apply (bool_decide_unpack _). vm_compute. exact I.
  - apply (bool_decide_unpack _). vm_compute. exact I.
  - intros m. reflexivity.
Defined.


Lemma send_personal_message_isolated_witness :
  (send_personal_message (fun _ _ => false) "hello" 2%nat
     [1%nat; 2%nat; 3%nat]).1 = false.
Proof.
  apply (proj1 (proj2 (send_personal_message_isolated (fun _ _ => false) "hello"
                         2%nat [1%nat; 2%nat; 3%nat]))).
  reflexivity.
Defined.



Lemma create_device_then_get_device_witness :
  exists device sv',
    create_device
      {| dc_name := "Sensor Nine"; dc_device_id := "dev-9"; dc_lat := None;
         dc_lng := None; dc_threshold_config := Some simulator_thresholds |}
      7 50 demo_service = (Ok device, sv')
    /\ get_device "dev-9" sv' = Ok device
    /\ status device = OFFLINE.
Proof.
  destruct (proj2 (create_device_then_get_device
              {| dc_name := "Sensor Nine"; dc_device_id := "dev-9"; dc_lat := None;
                 dc_lng := None; dc_threshold_config := Some simulator_thresholds |}
              7 50 demo_service))
    as (device & sv' & entry & Hcreate & Hget & Hstatus & _).
  - apply (bool_decide_unpack _). vm_compute. exact I.
  - exists device, sv'. by repeat split.
Defined.

Lemma update_device_sets_only_given_fields_witness :
  exists new sv',
    update_device "dev-1"
      {| du_name := None; du_lat := Some (Some 1%Q); du_lng := None;
         du_threshold_config := Some None |}
      7 50 demo_service = (Ok new, sv')
    /\ get_device "dev-1" sv' = Ok new
    /\ threshold_config new = None
    /\ lat new = Some 1%Q.
Proof.
  destruct (proj2 (proj2 (update_device_sets_only_given_fields "dev-1"
              {| du_name := None; du_lat := Some (Some 1%Q); du_lng := None;
                 du_threshold_config := Some None |}
              7 50 demo_service))
              (device_row 1 "dev-1" OFFLINE (Some simulator_thresholds)))
    as (new & sv' & Hupd & Hget & _ & _ & Hlat & _ & Hcfg & _).
  - vm_compute. reflexivity.
  - discriminate.
  - exists new, sv'. by repeat split.
Defined.

Lemma update_device_thresholds_then_check_anomaly_witness :
  check_anomaly plain_num plain_time only_first
    (dict (sample "dev-1" (Some 90%Q) (Some 5%Q) None)) 60
    (core (update_device "dev-1"
             {| du_name := None; du_lat := None; du_lng := None;
                du_threshold_config := Some None |}
             7 50 demo_service).2)
  = core (update_device "dev-1"
            {| du_name := None; du_lat := None; du_lng := None;
               du_threshold_config := Some None |}
            7 50 demo_service).2.
Proof.
  apply (update_device_thresholds_then_check_anomaly plain_num plain_time
           only_first "dev-1"
           {| du_name := None; du_lat := None; du_lng := None;
              du_threshold_config := Some None |}
           None 7 50 60
           (dict (sample "dev-1" (Some 90%Q) (Some 5%Q) None)) demo_service).
  - apply (bool_decide_unpack _). vm_compute. exact I.
  - discriminate.
  - reflexivity.
  - vm_compute. reflexivity.
  - reflexivity.
Defined.

Lemma delete_device_then_unknown_witness :
  exists sv',
    delete_device false "dev-2" 7 50 demo_service
      = (Ok "Device deleted successfully", sv')
    /\ get_device "dev-2" sv' = Raise (HTTPException 404 "Device not found")
    /\ telemetry (core sv') = telemetry demo_state.
Proof.
  destruct (proj2 (proj2 (delete_device_then_unknown false "dev-2" 7 50
                            demo_service)))
    as (sv' & Hdel & Hget & _ & Htel & _).
  - apply (bool_decide_unpack _). vm_compute. exact I.
  - apply (bool_decide_unpack _). vm_compute. exact I.
  - by left.
  - exists sv'. by repeat split.
Defined.

Lemma run_admin_keeps_keys_unique_witness :
  service_keys_unique
    (run_admin plain_num plain_time only_first false demo_service
       [CreateDevice
          {| dc_name := "Sensor Nine"; dc_device_id := "dev-9"; dc_lat := None;
             dc_lng := None; dc_threshold_config := None |} 7 50;
        OfCore (Submit (sample "dev-9" (Some 20%Q) None None) 60 60);
        DeleteDevice "dev-2" 7 70]).
Proof.
  apply run_admin_keeps_keys_unique.
  apply (bool_decide_unpack _). vm_compute. exact I.
Defined.

Lemma run_admin_keeps_references_witness :
  references_resolve
    (core (run_admin plain_num plain_time only_first true demo_service
             [CreateDevice
                {| dc_name := "Sensor Nine"; dc_device_id := "dev-9"; dc_lat := None;
                   dc_lng := None; dc_threshold_config := None |} 7 50;
              OfCore (Submit (sample "dev-9" (Some 20%Q) None None) 60 60);
              DeleteDevice "dev-2" 7 70])).
Proof.
  apply run_admin_keeps_references.
  apply (bool_decide_unpack _). vm_compute. exact I.
Defined.

(** ** Liveness over a run *)

Lemma handle_device_row str_num isoformat send_text s r did d :
  first (has_device_id did) (devices s) = Some d ->
  first (has_device_id did) (devices (handle str_num isoformat send_text s r))
    = Some d
  \/ exists telemetry_data utcnow db_now,
       r = Submit telemetry_data utcnow db_now
       /\ first (has_device_id did)
            (devices (handle str_num isoformat send_text s r))
          = Some (mark_online utcnow d).
Proof.
  intros Hfirst.
  destruct r as [td utcnow db_now|db_now|aid|acc ws|ws];
    try (left; rewrite handle_other_keeps_device; [done | by intros []]).
  destruct (decide (tc_device_id td = did)) as [<-|Hne].
  - right. exists td, utcnow, db_now. split; [done|]. simpl.
    destruct (submit_known_device send_text td utcnow db_now s d Hfirst)
      as (row & s' & -> & Hdev). done.
  - left. by rewrite handle_other_keeps_device.
Qed.

(** X24.  No request of the core takes a device out of ONLINE: a device that
    is ONLINE stays ONLINE over every serial run of submissions, background
    evaluations, resolutions, connects and disconnects, however long it
    stays silent.  The only write to [status] is the one of
    [submit_telemetry]. *)
Theorem run_never_demotes
    (str_num : Q -> string) (isoformat : Z -> string)
    (send_text : WebSocket -> Message -> bool)
    (requests : list Request) (did : string) (s : State) :
  status_of did s = Some ONLINE ->
  status_of did (run str_num isoformat send_text s requests) = Some ONLINE.
Proof.
  unfold run. revert s.
  induction requests as [|r requests IH]; intros s Hs; simpl; [done|].
  apply IH. unfold status_of in *.
  destruct (first (has_device_id did) (devices s)) as [d|] eqn:Hfirst;
    [|discriminate].
  destruct (handle_device_row str_num isoformat send_text s r did d Hfirst)
    as [-> | (td & utcnow & db_now & _ & ->)]; done.
Qed.

(** X25.  [last_seen] never goes back while the clock does not: when the
    [utcnow] values of the submissions of a serial run are in non-decreasing
    order and none is earlier than the [last_seen] a device starts with, the
    device ends the run with a [last_seen] no earlier than the one it started
    with. *)
Theorem run_last_seen_monotone
    (str_num : Q -> string) (isoformat : Z -> string)
    (send_text : WebSocket -> Message -> bool)
    (requests : list Request) (did : string) (v : Z) (s : State) :
  last_seen_of did s = Some v ->
  StronglySorted Z.le (v :: submission_times requests) ->
  exists v',
    last_seen_of did (run str_num isoformat send_text s requests) = Some v'
    /\ v <= v'.
Proof.
  unfold run. revert s v.
  induction requests as [|r requests IH]; intros s v Hs Hsorted; simpl.
  - exists v. split; [done | lia].
  - unfold last_seen_of in Hs.
    destruct (first (has_device_id did) (devices s)) as [d|] eqn:Hfirst;
      [|discriminate].
    simpl in Hs.
    destruct (handle_device_row str_num isoformat send_text s r did d Hfirst)
      as [Hrow | (td & utcnow & db_now & -> & Hrow)].
    + destruct (IH (handle str_num isoformat send_text s r) v) as (v' & Hv' & Hle).
      * unfold last_seen_of. by rewrite Hrow.
      * destruct r; simpl in Hsorted; try done.
        apply StronglySorted_inv in Hsorted as [Htail Hhead].
        apply StronglySorted_inv in Htail as [Htail _].
        apply Forall_cons in Hhead as [_ Hhead].
        by constructor.
      * by exists v'.
    + simpl in Hsorted.
      apply StronglySorted_inv in Hsorted as [Htail Hhead].
      apply Forall_cons in Hhead as [Hle _].
      destruct (IH (handle str_num isoformat send_text s
                      (Submit td utcnow db_now)) utcnow) as (v' & Hv' & Hle').
      * unfold last_seen_of. by rewrite Hrow.
      * done.
      * exists v'. split; [done | lia].
Qed.

(** ** Evaluation is all or nothing *)

(** X26.  When one of the three checks raises, for a sample of a registered
    device with a non-empty configuration, [check_anomaly] writes no anomaly
    row and sends nothing, whatever the other checks found: the only change
    is one printed line with the exception.  Candidates are stored either
    all or not at all. *)
Theorem check_anomaly_all_or_nothing
    (str_num : Q -> string) (isoformat : Z -> string)
    (send_text : WebSocket -> Message -> bool)
    (telemetry_data : gmap string pyval) (did : string) (device : Device)
    (thresholds : ThresholdConfig) (db_now : Z) (s : State) :
  telemetry_data !! "device_id" = Some (PStr did) ->
  first (has_device_id did) (devices s) = Some device ->
  threshold_config device = Some thresholds ->
  thresholds <> ∅ ->
  (exists e, check_temperature str_num telemetry_data thresholds = Raise e)
  \/ (exists e, check_battery str_num telemetry_data thresholds = Raise e)
  \/ (exists e, check_signal_strength str_num telemetry_data thresholds = Raise e) ->
  exists e,
    check_anomaly str_num isoformat send_text telemetry_data db_now s
      = set_stdout (stdout s ++ [e]) s.
Proof.
  intros Hid Hdev Hcfg Hne Hraise.
  unfold check_anomaly, check_anomaly_try, getitem.
  rewrite Hid. simpl. rewrite Hdev, Hcfg.
  destruct (size thresholds) eqn:Hsize.
  { by apply map_size_empty_inv in Hsize. }
  assert (exists e, anomalies_detected str_num telemetry_data thresholds = Raise e)
    as (e & ->).
  { unfold anomalies_detected.
    destruct (check_temperature str_num telemetry_data thresholds) as [t|et];
      [|by exists et].
    destruct (check_battery str_num telemetry_data thresholds) as [b|eb];
      [|by exists eb].
    destruct (check_signal_strength str_num telemetry_data thresholds) as [g|eg];
      [|by exists eg].
    destruct Hraise as [(e & He) | [(e & He) | (e & He)]]; discriminate. }
  by exists e.
Qed.

Lemma run_never_demotes_witness :
  status_of "dev-2"
    (run plain_num plain_time only_first demo_state
       [Submit (sample "dev-1" (Some 90%Q) None None) 40 40; Background 41;
        Resolve 2; Disconnect 1%nat])
  = Some ONLINE.
Proof. apply run_never_demotes. reflexivity. Defined.

Lemma run_last_seen_monotone_witness :
  exists v',
    last_seen_of "dev-1"
      (run plain_num plain_time only_first
         (run plain_num plain_time only_first demo_state
            [Submit (sample "dev-1" (Some 20%Q) None None) 40 40])
         [Background 41; Submit (sample "dev-2" None None None) 50 50;
          Submit (sample "dev-1" (Some 21%Q) None None) 60 60]) = Some v'
    /\ 40 <= v'.
Proof.
  apply run_last_seen_monotone.
  - vm_compute. reflexivity.
  - apply (bool_decide_unpack _). vm_compute. exact I.
Defined.

Lemma check_anomaly_all_or_nothing_witness :
  exists e,
    check_anomaly plain_num plain_time only_first
      (dict (sample "dev-1" (Some 90%Q) None None)) 41 demo_state
    = set_stdout (stdout demo_state ++ [e]) demo_state.
Proof.
  apply (check_anomaly_all_or_nothing plain_num plain_time only_first
           (dict (sample "dev-1" (Some 90%Q) None None)) "dev-1"
           (device_row 1 "dev-1" OFFLINE (Some simulator_thresholds))
           simulator_thresholds).
  - vm_compute. reflexivity.
  - vm_compute. reflexivity.
  - reflexivity.
  - intros Hempty.
    assert (simulator_thresholds !! "battery" = None) as Hnone
      by (by rewrite Hempty).
    vm_compute in Hnone. discriminate.
  - right. left. exists TypeError. vm_compute. reflexivity.
Defined.
